(** * DBusTransport: the base class of D-BUS transports

    A shallow embedding of [dbus/dbus-transport.c] and
    [dbus/dbus-transport-protected.h]: the reference count, the
    HOLD_REF/RELEASE_REF reentrancy macros, the disconnect and
    authentication flags and the dispatch through the subclass vtable.

    The C functions act on one [DBusTransport] structure through a pointer
    and call out to collaborators (connection, watch, loader, auth) and to
    the subclass through function pointers.  They are modelled in a state
    and error monad over a [World] holding the structure, the state of the
    collaborators and a chronological trace of the calls leaving
    dbus-transport.c.

    Subclass operations are functions of the model and may call the entry
    points again.  Calls on the connection, the watch, the loader and the
    auth conversation are recorded in the trace; those that return nothing
    have no other effect in the model (a connection does not call back).
    [_dbus_transport_open] only forwards to the domain-socket constructor,
    which is outside the core, and is left out. *)

From Stdlib Require Import ZArith List Bool Lia.
Import ListNotations.
Open Scope Z_scope.

(** ** C data *)

(** Pointers to collaborator objects are addresses; [NULL] is address 0. *)
Definition ptr := N.
Definition NULL : ptr := 0%N.
Definition is_null (p : ptr) : bool := N.eqb p NULL.

(** [int] is 32 bits wide, two's complement; arithmetic on [refcount]
    wraps around as the hardware does. *)
Definition INT_MAX : Z := 2147483647.
Definition INT_MIN : Z := -2147483648.
Definition int_wrap (z : Z) : Z := (z + 2147483648) mod 4294967296 - 2147483648.

(** [struct DBusTransport] of dbus-transport-protected.h.  The three
    one-bit bitfields are booleans; [vtable] is the address of the
    subclass's table. *)
Record DBusTransport : Type := mkTransport {
  refcount : Z;
  vtable : ptr;
  connection : ptr;
  loader : ptr;
  auth : ptr;
  disconnected : bool;
  authenticated : bool;
  messages_need_sending : bool
}.

Definition set_refcount (v : Z) (t : DBusTransport) : DBusTransport :=
  mkTransport v (vtable t) (connection t) (loader t) (auth t)
              (disconnected t) (authenticated t) (messages_need_sending t).
Definition set_vtable (v : ptr) (t : DBusTransport) : DBusTransport :=
  mkTransport (refcount t) v (connection t) (loader t) (auth t)
              (disconnected t) (authenticated t) (messages_need_sending t).
Definition set_connection (v : ptr) (t : DBusTransport) : DBusTransport :=
  mkTransport (refcount t) (vtable t) v (loader t) (auth t)
              (disconnected t) (authenticated t) (messages_need_sending t).
Definition set_loader (v : ptr) (t : DBusTransport) : DBusTransport :=
  mkTransport (refcount t) (vtable t) (connection t) v (auth t)
              (disconnected t) (authenticated t) (messages_need_sending t).
Definition set_auth (v : ptr) (t : DBusTransport) : DBusTransport :=
  mkTransport (refcount t) (vtable t) (connection t) (loader t) v
              (disconnected t) (authenticated t) (messages_need_sending t).
Definition set_disconnected (v : bool) (t : DBusTransport) : DBusTransport :=
  mkTransport (refcount t) (vtable t) (connection t) (loader t) (auth t)
              v (authenticated t) (messages_need_sending t).
Definition set_authenticated (v : bool) (t : DBusTransport) : DBusTransport :=
  mkTransport (refcount t) (vtable t) (connection t) (loader t) (auth t)
              (disconnected t) v (messages_need_sending t).
Definition set_messages_need_sending (v : bool) (t : DBusTransport) : DBusTransport :=
  mkTransport (refcount t) (vtable t) (connection t) (loader t) (auth t)
              (disconnected t) (authenticated t) v.

(** The six operations of [struct DBusTransportVTable], with the arguments
    of one call (the transport itself is implicit). *)
Inductive vcall : Type :=
| VFinalize
| VHandleWatch (watch : ptr) (flags : Z)
| VDisconnect
| VConnectionSet
| VMessagesPending (queue_length : Z)
| VDoIteration (flags : Z) (timeout_milliseconds : Z).

(** Calls that leave dbus-transport.c, and the two reference-count entry
    points, in the order the trace records them. *)
Inductive event : Type :=
| Ev_transport_ref
| Ev_transport_unref
| Ev_connection_ref (c : ptr)
| Ev_connection_unref (c : ptr)
| Ev_connection_transport_error (c : ptr) (code : Z)
| Ev_watch_ref (w : ptr)
| Ev_watch_unref (w : ptr)
| Ev_warn
| Ev_message_loader_new (r : ptr)
| Ev_message_loader_unref (l : ptr)
| Ev_auth_server_new (r : ptr)
| Ev_auth_client_new (r : ptr)
| Ev_auth_unref (a : ptr)
| Ev_auth_do_work (a : ptr)
| Ev_vcall (c : vcall)
| Ev_free.

Inductive fault : Type :=
| AssertionFailed   (* a _dbus_assert does not hold *)
| NullCall          (* call through a NULL function pointer *)
| UseAfterFree      (* the structure is read or written after dbus_free *)
| OutOfFuel.        (* callback nesting deeper than the model unfolds *)

Inductive result (A : Type) : Type :=
| Ok (a : A)
| Fault (f : fault).
Arguments Ok {A} a.
Arguments Fault {A} f.

(** ** Collaborators

    What dbus-transport.c takes from headers that are not part of the
    core: four constants of enumerations, and the collaborator functions
    whose result the transport uses.  [Env] is the state of everything
    outside the transport structure (auth conversation, watches, allocator,
    subclass fields). *)
Class Collaborators (Env : Type) : Type := {
  DBUS_RESULT_DISCONNECTED : Z;
  DBUS_ITERATION_DO_WRITING : Z;
  DBUS_ITERATION_DO_READING : Z;
  DBUS_AUTH_STATE_AUTHENTICATED : Z;
  _dbus_message_loader_new : Env -> ptr * Env;
  _dbus_auth_server_new : Env -> ptr * Env;
  _dbus_auth_client_new : Env -> ptr * Env;
  _dbus_auth_do_work : ptr -> Env -> Z * Env;
  dbus_watch_get_fd : ptr -> Env -> Z;
  _dbus_watch_sanitize_condition : ptr -> Z -> Env -> Z
}.

Section Transport.

Context {Env : Type} {collab : Collaborators Env}.

(** The transport structure ([None] once freed), the collaborators' state,
    and the trace.  Every trace entry carries the contents of the structure
    at the moment of the call, which is what the callee can observe. *)
Record World : Type := mkWorld {
  heap : option DBusTransport;
  env : Env;
  trace : list (event * option DBusTransport)
}.

Definition M (A : Type) : Type := World -> result A * World.

Definition ret {A : Type} (a : A) : M A := fun w => (Ok a, w).

Definition bind {A B : Type} (m : M A) (k : A -> M B) : M B :=
  fun w => match m w with
           | (Ok a, w') => k a w'
           | (Fault f, w') => (Fault f, w')
           end.

Definition fail {A : Type} (f : fault) : M A := fun w => (Fault f, w).

Notation "x <- c1 ;; c2" := (bind c1 (fun x => c2))
  (at level 61, c1 at next level, right associativity).
Notation "c1 ;; c2" := (bind c1 (fun _ => c2))
  (at level 61, right associativity).

Definition emit (e : event) : M unit :=
  fun w => (Ok tt, mkWorld (heap w) (env w) (trace w ++ [(e, heap w)])).

(** Reading and writing through the [transport] pointer. *)
Definition load : M DBusTransport :=
  fun w => match heap w with
           | Some t => (Ok t, w)
           | None => (Fault UseAfterFree, w)
           end.

Definition update (g : DBusTransport -> DBusTransport) : M unit :=
  fun w => match heap w with
           | Some t => (Ok tt, mkWorld (Some (g t)) (env w) (trace w))
           | None => (Fault UseAfterFree, w)
           end.

Definition dbus_free : M unit :=
  fun w => match heap w with
           | Some _ => (Ok tt, mkWorld None (env w) (trace w ++ [(Ev_free, heap w)]))
           | None => (Fault UseAfterFree, w)
           end.

Definition _dbus_assert (b : bool) : M unit :=
  if b then ret tt else fail AssertionFailed.

(** A collaborator call that returns a value and may change [Env]. *)
Definition extern {A : Type} (f : Env -> A * Env) : M A :=
  fun w => let (a, e') := f (env w) in (Ok a, mkWorld (heap w) e' (trace w)).

(** ** The vtable *)

(** What subclass code may call back while it runs: the entry points of
    dbus-transport.h and dbus-transport-protected.h. *)
Record API : Type := mkAPI {
  api_ref : M unit;
  api_unref : M unit;
  api_disconnect : M unit;
  api_finalize_base : M unit;
  api_get_is_connected : M bool;
  api_get_is_authenticated : M bool;
  api_handle_watch : ptr -> Z -> M unit;
  api_set_connection : ptr -> M unit;
  api_messages_pending : Z -> M unit;
  api_do_iteration : Z -> Z -> M unit
}.

(** [struct DBusTransportVTable]: six function pointers, [None] for NULL. *)
Record DBusTransportVTable : Type := mkVTable {
  finalize : option (API -> M unit);
  handle_watch : option (API -> ptr -> Z -> M unit);
  disconnect : option (API -> M unit);
  connection_set : option (API -> M unit);
  messages_pending : option (API -> Z -> M unit);
  do_iteration : option (API -> Z -> Z -> M unit)
}.

(** The tables that vtable addresses point to. *)
Variable vtables : ptr -> DBusTransportVTable.

(** [transport->vtable->slot] *)
Definition vslot {F : Type} (slot : DBusTransportVTable -> option F) : M (option F) :=
  t <- load ;; ret (slot (vtables (vtable t))).

Definition is_some {F : Type} (o : option F) : bool :=
  match o with Some _ => true | None => false end.

(** ** dbus-transport.c *)

Definition _dbus_transport_ref : M unit :=
  emit Ev_transport_ref ;;
  update (fun t => set_refcount (int_wrap (refcount t + 1)) t).

Definition _dbus_transport_unref (api : API) : M unit :=
  emit Ev_transport_unref ;;
  t <- load ;;
  _dbus_assert (0 <? refcount t) ;;
  update (fun t => set_refcount (int_wrap (refcount t - 1)) t) ;;
  t <- load ;;
  if refcount t =? 0 then
    fn <- vslot finalize ;;
    _dbus_assert (is_some fn) ;;
    fn <- vslot finalize ;;
    match fn with
    | Some fn => emit (Ev_vcall VFinalize) ;; fn api
    | None => fail NullCall
    end
  else ret tt.

(** [#define DBUS_TRANSPORT_HOLD_REF(t)] *)
Definition DBUS_TRANSPORT_HOLD_REF : M unit :=
  _dbus_transport_ref ;;
  t <- load ;;
  if negb (is_null (connection t))
  then t <- load ;; emit (Ev_connection_ref (connection t))
  else ret tt.

(** [#define DBUS_TRANSPORT_RELEASE_REF(t)] *)
Definition DBUS_TRANSPORT_RELEASE_REF (api : API) : M unit :=
  t <- load ;;
  (if negb (is_null (connection t))
   then t <- load ;; emit (Ev_connection_unref (connection t))
   else ret tt) ;;
  _dbus_transport_unref api.

Definition _dbus_transport_init_base (vt : ptr) (server : bool) : M bool :=
  loader <- extern _dbus_message_loader_new ;;
  emit (Ev_message_loader_new loader) ;;
  if is_null loader then ret false
  else
    auth <- (if server
             then a <- extern _dbus_auth_server_new ;;
                  emit (Ev_auth_server_new a) ;; ret a
             else a <- extern _dbus_auth_client_new ;;
                  emit (Ev_auth_client_new a) ;; ret a) ;;
    if is_null auth then
      emit (Ev_message_loader_unref loader) ;;
      ret false
    else
      update (set_refcount 1) ;;
      update (set_vtable vt) ;;
      update (set_loader loader) ;;
      update (set_auth auth) ;;
      update (set_authenticated false) ;;
      update (set_messages_need_sending false) ;;
      update (set_disconnected false) ;;
      ret true.

Definition _dbus_transport_disconnect (api : API) : M unit :=
  fn <- vslot disconnect ;;
  _dbus_assert (is_some fn) ;;
  t <- load ;;
  if disconnected t then ret tt
  else
    DBUS_TRANSPORT_HOLD_REF ;;
    fn <- vslot disconnect ;;
    match fn with
    | Some fn => emit (Ev_vcall VDisconnect) ;; fn api
    | None => fail NullCall
    end ;;
    update (set_disconnected true) ;;
    DBUS_TRANSPORT_RELEASE_REF api.

Definition _dbus_transport_finalize_base (api : API) : M unit :=
  t <- load ;;
  (if negb (disconnected t) then _dbus_transport_disconnect api else ret tt) ;;
  t <- load ;;
  emit (Ev_message_loader_unref (loader t)) ;;
  t <- load ;;
  emit (Ev_auth_unref (auth t)).

Definition _dbus_transport_get_is_connected : M bool :=
  t <- load ;; ret (negb (disconnected t)).

Definition _dbus_transport_get_is_authenticated : M bool :=
  t <- load ;;
  if authenticated t then ret true
  else
    t <- load ;;
    emit (Ev_auth_do_work (auth t)) ;;
    st <- extern (_dbus_auth_do_work (auth t)) ;;
    update (set_authenticated (st =? DBUS_AUTH_STATE_AUTHENTICATED)) ;;
    t <- load ;;
    ret (authenticated t).

Definition _dbus_transport_handle_watch (api : API) (watch : ptr) (condition : Z)
  : M unit :=
  fn <- vslot handle_watch ;;
  _dbus_assert (is_some fn) ;;
  t <- load ;;
  if disconnected t then
    t <- load ;;
    emit (Ev_connection_transport_error (connection t) DBUS_RESULT_DISCONNECTED)
  else
    fd <- extern (fun e => (dbus_watch_get_fd watch e, e)) ;;
    if fd <? 0 then emit Ev_warn
    else
      condition <- extern (fun e => (_dbus_watch_sanitize_condition watch condition e, e)) ;;
      DBUS_TRANSPORT_HOLD_REF ;;
      emit (Ev_watch_ref watch) ;;
      fn <- vslot handle_watch ;;
      match fn with
      | Some fn => emit (Ev_vcall (VHandleWatch watch condition)) ;; fn api watch condition
      | None => fail NullCall
      end ;;
      emit (Ev_watch_unref watch) ;;
      DBUS_TRANSPORT_RELEASE_REF api.

Definition _dbus_transport_set_connection (api : API) (conn : ptr) : M unit :=
  fn <- vslot connection_set ;;
  _dbus_assert (is_some fn) ;;
  t <- load ;;
  _dbus_assert (is_null (connection t)) ;;
  update (set_connection conn) ;;
  DBUS_TRANSPORT_HOLD_REF ;;
  fn <- vslot connection_set ;;
  match fn with
  | Some fn => emit (Ev_vcall VConnectionSet) ;; fn api
  | None => fail NullCall
  end ;;
  DBUS_TRANSPORT_RELEASE_REF api.

Definition _dbus_transport_messages_pending (api : API) (queue_length : Z) : M unit :=
  fn <- vslot messages_pending ;;
  _dbus_assert (is_some fn) ;;
  t <- load ;;
  if disconnected t then
    t <- load ;;
    emit (Ev_connection_transport_error (connection t) DBUS_RESULT_DISCONNECTED)
  else
    update (set_messages_need_sending (0 <? queue_length)) ;;
    DBUS_TRANSPORT_HOLD_REF ;;
    fn <- vslot messages_pending ;;
    match fn with
    | Some fn => emit (Ev_vcall (VMessagesPending queue_length)) ;; fn api queue_length
    | None => fail NullCall
    end ;;
    DBUS_TRANSPORT_RELEASE_REF api.

Definition _dbus_transport_do_iteration (api : API) (flags : Z) (timeout_milliseconds : Z)
  : M unit :=
  fn <- vslot do_iteration ;;
  _dbus_assert (is_some fn) ;;
  if Z.land flags (Z.lor DBUS_ITERATION_DO_WRITING DBUS_ITERATION_DO_READING) =? 0
  then ret tt
  else
    t <- load ;;
    if disconnected t then
      t <- load ;;
      emit (Ev_connection_transport_error (connection t) DBUS_RESULT_DISCONNECTED)
    else
      DBUS_TRANSPORT_HOLD_REF ;;
      fn <- vslot do_iteration ;;
      match fn with
      | Some fn => emit (Ev_vcall (VDoIteration flags timeout_milliseconds)) ;;
                   fn api flags timeout_milliseconds
      | None => fail NullCall
      end ;;
      DBUS_TRANSPORT_RELEASE_REF api.

(** The entry points as subclass code sees them.  A callback dispatched
    from an entry point runs with the entry points one level further down;
    [fuel] bounds how deep callbacks may nest. *)
Definition no_api : API :=
  mkAPI (fail OutOfFuel) (fail OutOfFuel) (fail OutOfFuel) (fail OutOfFuel)
        (fail OutOfFuel) (fail OutOfFuel)
        (fun _ _ => fail OutOfFuel) (fun _ => fail OutOfFuel)
        (fun _ => fail OutOfFuel) (fun _ _ => fail OutOfFuel).

Fixpoint transport_api (fuel : nat) : API :=
  match fuel with
  | O => no_api
  | S n =>
      let inner := transport_api n in
      mkAPI _dbus_transport_ref
            (_dbus_transport_unref inner)
            (_dbus_transport_disconnect inner)
            (_dbus_transport_finalize_base inner)
            _dbus_transport_get_is_connected
            _dbus_transport_get_is_authenticated
            (_dbus_transport_handle_watch inner)
            (_dbus_transport_set_connection inner)
            (_dbus_transport_messages_pending inner)
            (_dbus_transport_do_iteration inner)
  end.

(** ** Subclasses

    No concrete transport is part of the core.  A subclass operation that
    neither calls back into the transport nor writes the base structure
    reads the structure and acts on its own state: [f c t] is what
    operation [c] does to [Env] when it finds the structure as [t]. *)
Definition subclass_work (f : vcall -> DBusTransport -> Env -> Env) (c : vcall) : M unit :=
  t <- load ;; extern (fun e => (tt, f c t e)).

(** A table of such operations.  Its finalize frees the structure, as the
    header requires ("The finalize method must free the transport"), and
    does not chain up. *)
Definition leaf_vtable (f : vcall -> DBusTransport -> Env -> Env) : DBusTransportVTable :=
  mkVTable
    (Some (fun _ => subclass_work f VFinalize ;; dbus_free))
    (Some (fun _ watch flags => subclass_work f (VHandleWatch watch flags)))
    (Some (fun _ => subclass_work f VDisconnect))
    (Some (fun _ => subclass_work f VConnectionSet))
    (Some (fun _ queue_length => subclass_work f (VMessagesPending queue_length)))
    (Some (fun _ flags timeout => subclass_work f (VDoIteration flags timeout))).

(** The structure after DBUS_TRANSPORT_HOLD_REF. *)
Definition after_hold (t : DBusTransport) : DBusTransport :=
  set_refcount (int_wrap (refcount t + 1)) t.

(** The events of DBUS_TRANSPORT_HOLD_REF run on structure [t], and those
    of DBUS_TRANSPORT_RELEASE_REF run on [t] up to the entry of
    [_dbus_transport_unref]. *)
Definition hold_events (t : DBusTransport) : list (event * option DBusTransport) :=
  (Ev_transport_ref, Some t) ::
  (if is_null (connection t) then []
   else [(Ev_connection_ref (connection t), Some (after_hold t))]).

Definition release_events (t : DBusTransport) : list (event * option DBusTransport) :=
  (if is_null (connection t) then []
   else [(Ev_connection_unref (connection t), Some t)]) ++
  [(Ev_transport_unref, Some t)].

(** The world in which a dispatched operation [c] starts when the entry
    point found structure [t], collaborators [e] and trace [tr], and made
    the calls [before] between the hold and the dispatch. *)
Definition at_dispatch (t : DBusTransport) (e : Env)
           (tr before : list (event * option DBusTransport)) (c : vcall) : World :=
  mkWorld (Some (after_hold t)) e
          (tr ++ hold_events t ++ before ++ [(Ev_vcall c, Some (after_hold t))]).

(** Modelled from the spec: the finalize operation of a concrete transport,
    whose source (dbus-transport-unix.c) is not part of the core.  The spec
    (section 3, Lifecycle) makes it "responsible for releasing subclass
    resources and then the base resources (loader, auth) after ensuring
    disconnection has occurred"; dbus-transport.c provides
    [_dbus_transport_finalize_base] for this ("Chained up to from subclass
    finalizers") and the header adds "The finalize method must free the
    transport".  So: subclass resources, chain up, free. *)
Definition chained_finalize (f : vcall -> DBusTransport -> Env -> Env) : API -> M unit :=
  fun api =>
    subclass_work f VFinalize ;;
    api_finalize_base api ;;
    dbus_free.

Definition chained_vtable (f : vcall -> DBusTransport -> Env -> Env) : DBusTransportVTable :=
  mkVTable
    (Some (chained_finalize f))
    (handle_watch (leaf_vtable f))
    (disconnect (leaf_vtable f))
    (connection_set (leaf_vtable f))
    (messages_pending (leaf_vtable f))
    (do_iteration (leaf_vtable f)).


(** ** Sequences of reference operations *)

Inductive refop : Type := Ref | Unref.

Definition exec_refop (api : API) (o : refop) : M unit :=
  match o with
  | Ref => _dbus_transport_ref
  | Unref => _dbus_transport_unref api
  end.

Fixpoint exec_refops (api : API) (os : list refop) : M unit :=
  match os with
  | [] => ret tt
  | o :: os' => exec_refop api o ;; exec_refops api os'
  end.

(** The count after the operations, started at [rc]: [rc] plus the refs
    minus the unrefs. *)
Definition count_after (rc : Z) (o : refop) : Z :=
  match o with Ref => rc + 1 | Unref => rc - 1 end.

Fixpoint balance (rc : Z) (os : list refop) : Z :=
  match os with
  | [] => rc
  | o :: os' => balance (count_after rc o) os'
  end.

(** Every operation of the sequence finds a positive count: no operation
    comes after the unref that released the last reference. *)
Fixpoint live_before (rc : Z) (os : list refop) : bool :=
  match os with
  | [] => true
  | o :: os' => (0 <? rc) && live_before (count_after rc o) os'
  end.

(** ** Sequences of calls *)

(** What the owner of a transport may call on it (dbus-transport.h), apart
    from the constructor. *)
Inductive call : Type :=
| Call_ref
| Call_unref
| Call_disconnect
| Call_get_is_connected
| Call_get_is_authenticated
| Call_handle_watch (watch : ptr) (condition : Z)
| Call_set_connection (conn : ptr)
| Call_messages_pending (queue_length : Z)
| Call_do_iteration (flags : Z) (timeout_milliseconds : Z).

Definition exec_call (api : API) (c : call) : M unit :=
  match c with
  | Call_ref => _dbus_transport_ref
  | Call_unref => _dbus_transport_unref api
  | Call_disconnect => _dbus_transport_disconnect api
  | Call_get_is_connected => _dbus_transport_get_is_connected ;; ret tt
  | Call_get_is_authenticated => _dbus_transport_get_is_authenticated ;; ret tt
  | Call_handle_watch watch condition => _dbus_transport_handle_watch api watch condition
  | Call_set_connection conn => _dbus_transport_set_connection api conn
  | Call_messages_pending queue_length => _dbus_transport_messages_pending api queue_length
  | Call_do_iteration flags timeout => _dbus_transport_do_iteration api flags timeout
  end.

Fixpoint exec_calls (api : API) (cs : list call) : M unit :=
  match cs with
  | [] => ret tt
  | c :: cs' => exec_call api c ;; exec_calls api cs'
  end.

(** The same call [n] times in a row. *)
Fixpoint times (n : nat) (m : M unit) : M unit :=
  match n with
  | O => ret tt
  | S k => m ;; times k m
  end.

(** Counting dispatches in a trace. *)
Definition is_vcall (x : event * option DBusTransport) : bool :=
  match fst x with Ev_vcall _ => true | _ => false end.
Definition is_finalize_call (x : event * option DBusTransport) : bool :=
  match fst x with Ev_vcall VFinalize => true | _ => false end.
Definition is_disconnect_call (x : event * option DBusTransport) : bool :=
  match fst x with Ev_vcall VDisconnect => true | _ => false end.
Definition is_connection_ref (c : ptr) (x : event * option DBusTransport) : bool :=
  match fst x with Ev_connection_ref c' => N.eqb c c' | _ => false end.
Definition is_connection_unref (c : ptr) (x : event * option DBusTransport) : bool :=
  match fst x with Ev_connection_unref c' => N.eqb c c' | _ => false end.
Definition count_events (p : event * option DBusTransport -> bool)
           (tr : list (event * option DBusTransport)) : nat :=
  length (filter p tr).

(** The trace only grows at its end: what a computation run in [w] adds. *)
Definition added_events (m : M unit) (w : World) : list (event * option DBusTransport) :=
  skipn (length (trace w)) (trace (snd (m w))).

(** While the structure is allocated its cache holds [true] and its vtable
    is the leaf table [f]. *)
Definition auth_kept (f : vcall -> DBusTransport -> Env -> Env) (w : World) : Prop :=
  match heap w with
  | None => True
  | Some t => authenticated t = true /\ vtables (vtable t) = leaf_vtable f
  end.

(** ** Subclasses that call back *)

(** A subclass whose handle_watch, after its own work, disconnects its own
    transport through [_dbus_transport_disconnect], as a transport does
    when it finds its channel broken; a leaf otherwise. *)
Definition disconnecting_vtable (f : vcall -> DBusTransport -> Env -> Env)
  : DBusTransportVTable :=
  mkVTable
    (finalize (leaf_vtable f))
    (Some (fun api watch flags =>
             subclass_work f (VHandleWatch watch flags) ;;
             api_disconnect api))
    (disconnect (leaf_vtable f))
    (connection_set (leaf_vtable f))
    (messages_pending (leaf_vtable f))
    (do_iteration (leaf_vtable f)).

(** A subclass each of whose dispatched operations, finalize apart, ends by
    giving up one reference on the transport through
    [_dbus_transport_unref] (the owner letting go during the callback). *)
Definition dropping_vtable (f : vcall -> DBusTransport -> Env -> Env)
  : DBusTransportVTable :=
  mkVTable
    (finalize (leaf_vtable f))
    (Some (fun api watch flags =>
             subclass_work f (VHandleWatch watch flags) ;; api_unref api))
    (Some (fun api => subclass_work f VDisconnect ;; api_unref api))
    (Some (fun api => subclass_work f VConnectionSet ;; api_unref api))
    (Some (fun api queue_length =>
             subclass_work f (VMessagesPending queue_length) ;; api_unref api))
    (Some (fun api flags timeout =>
             subclass_work f (VDoIteration flags timeout) ;; api_unref api)).

(** A subclass whose disconnect calls [_dbus_transport_disconnect] on its
    own transport; a leaf otherwise. *)
Definition redisconnecting_vtable (f : vcall -> DBusTransport -> Env -> Env)
  : DBusTransportVTable :=
  mkVTable
    (finalize (leaf_vtable f))
    (handle_watch (leaf_vtable f))
    (Some (fun api => subclass_work f VDisconnect ;; api_disconnect api))
    (connection_set (leaf_vtable f))
    (messages_pending (leaf_vtable f))
    (do_iteration (leaf_vtable f)).

(** ** Measures on call sequences and traces *)

(** Dispatches of the four operations that use the channel. *)
Definition is_io_call (x : event * option DBusTransport) : bool :=
  match fst x with
  | Ev_vcall (VHandleWatch _ _) => true
  | Ev_vcall VDisconnect => true
  | Ev_vcall (VMessagesPending _) => true
  | Ev_vcall (VDoIteration _ _) => true
  | _ => false
  end.

(** Refs minus unrefs among the calls of the owner. *)
Definition ref_delta (c : call) : Z :=
  match c with
  | Call_ref => 1
  | Call_unref => -1
  | _ => 0
  end.

Fixpoint net_refs (cs : list call) : Z :=
  match cs with
  | [] => 0
  | c :: cs' => ref_delta c + net_refs cs'
  end.

(** While the structure is allocated it is disconnected and its vtable is
    the leaf table [f]; the trace holds [k] channel dispatches. *)
Definition stays_disconnected (f : vcall -> DBusTransport -> Env -> Env) (k : nat)
           (w : World) : Prop :=
  count_events is_io_call (trace w) = k
  /\ match heap w with
     | None => True
     | Some t => disconnected t = true /\ vtables (vtable t) = leaf_vtable f
     end.

(** The connection part of DBUS_TRANSPORT_RELEASE_REF for connection [c],
    run on structure [t]. *)
Definition connection_unref_events (c : ptr) (t : DBusTransport)
  : list (event * option DBusTransport) :=
  if is_null c then [] else [(Ev_connection_unref c, Some t)].

(** The calls of a trace without the contents of the structure. *)
Definition events (w : World) : list event := map fst (trace w).

End Transport.

(** ** A concrete world

    One environment to run the functions in: allocations come from a list
    of addresses (NULL once it is used up), the auth conversation reports
    the states of a list in turn, a watch's descriptor is its address minus
    one, and the subclass keeps a record of the operations it ran.  The
    values of the four constants are samples. *)
Record Sim : Type := mkSim {
  sim_allocs : list ptr;
  sim_phases : list Z;
  sim_calls : list vcall
}.

Definition sim_alloc (s : Sim) : ptr * Sim :=
  match sim_allocs s with
  | [] => (NULL, s)
  | p :: ps => (p, mkSim ps (sim_phases s) (sim_calls s))
  end.

Definition sim_do_work (a : ptr) (s : Sim) : Z * Sim :=
  match sim_phases s with
  | [] => (0, s)
  | p :: ps => (p, mkSim (sim_allocs s) ps (sim_calls s))
  end.

#[local] Instance sim_collaborators : Collaborators Sim := {|
  DBUS_RESULT_DISCONNECTED := 13;
  DBUS_ITERATION_DO_WRITING := 1;
  DBUS_ITERATION_DO_READING := 2;
  DBUS_AUTH_STATE_AUTHENTICATED := 5;
  _dbus_message_loader_new := sim_alloc;
  _dbus_auth_server_new := sim_alloc;
  _dbus_auth_client_new := sim_alloc;
  _dbus_auth_do_work := sim_do_work;
  dbus_watch_get_fd := fun w _ => Z.of_N w - 1;
  _dbus_watch_sanitize_condition := fun _ condition _ => Z.land condition 3
|}.

Definition sim_subclass (c : vcall) (t : DBusTransport) (s : Sim) : Sim :=
  mkSim (sim_allocs s) (sim_phases s) (sim_calls s ++ [c]).

Definition sim_leaf : ptr -> DBusTransportVTable := fun _ => leaf_vtable sim_subclass.
Definition sim_chained : ptr -> DBusTransportVTable := fun _ => chained_vtable sim_subclass.
Definition sim_disconnecting : ptr -> DBusTransportVTable :=
  fun _ => disconnecting_vtable sim_subclass.
Definition sim_dropping : ptr -> DBusTransportVTable :=
  fun _ => dropping_vtable sim_subclass.
Definition sim_redisconnecting : ptr -> DBusTransportVTable :=
  fun _ => redisconnecting_vtable sim_subclass.

(** The structure as the subclass constructor allocates it (dbus_new0). *)
Definition zeroed : DBusTransport :=
  mkTransport 0 NULL NULL NULL NULL false false false.

(** An initialised transport with one reference, bound to connection 7. *)
Definition live : DBusTransport :=
  mkTransport 1 1%N 7%N 16%N 32%N false false false.

(** The same before any connection is bound. *)
Definition unbound : DBusTransport :=
  mkTransport 1 1%N NULL 16%N 32%N false false false.

Definition sim0 : Sim := mkSim [16%N; 32%N] [0; 5] [].

(** * Properties *)

Arguments int_wrap : simpl never.

Section Properties.

Context {Env : Type} {collab : Collaborators Env}.
Variable vtables : ptr -> @DBusTransportVTable Env.

Implicit Types (e : Env) (t : DBusTransport) (api : @API Env) (w : @World Env).

Notation "x <- c1 ;; c2" := (bind c1 (fun x => c2))
  (at level 61, c1 at next level, right associativity).
Notation "c1 ;; c2" := (bind c1 (fun _ => c2))
  (at level 61, right associativity).

Lemma int_wrap_small (z : Z) : INT_MIN <= z <= INT_MAX -> int_wrap z = z.
Proof.
  unfold INT_MIN, INT_MAX, int_wrap. intros H.
  rewrite Z.mod_small by lia. lia.
Qed.

Lemma skipn_length_app {A : Type} (l k : list A) : skipn (length l) (l ++ k) = k.
Proof. induction l as [|x l IH]; simpl; auto. Qed.

Ltac unfold_transport :=
  unfold _dbus_transport_disconnect, _dbus_transport_handle_watch,
    _dbus_transport_set_connection, _dbus_transport_messages_pending,
    _dbus_transport_do_iteration, _dbus_transport_finalize_base,
    _dbus_transport_get_is_connected, _dbus_transport_get_is_authenticated,
    _dbus_transport_init_base,
    DBUS_TRANSPORT_HOLD_REF, DBUS_TRANSPORT_RELEASE_REF,
    _dbus_transport_unref, _dbus_transport_ref,
    after_hold, vslot, subclass_work, _dbus_assert, bind, ret, fail, emit, load, update,
    extern, dbus_free.

(** Arithmetic of a hold/release pair on a live count. *)
Lemma guard_arith (rc : Z) :
  0 < rc < INT_MAX ->
  int_wrap (rc + 1) = rc + 1 /\ (0 <? rc + 1) = true /\
  int_wrap (rc + 1 - 1) = rc /\ (rc =? 0) = false.
Proof.
  intros H. unfold INT_MAX in H.
  repeat split.
  - apply int_wrap_small. unfold INT_MIN, INT_MAX. lia.
  - apply Z.ltb_lt. lia.
  - replace (rc + 1 - 1) with rc by lia.
    apply int_wrap_small. unfold INT_MIN, INT_MAX. lia.
  - apply Z.eqb_neq. lia.
Qed.

Ltac guard_facts H :=
  let H1 := fresh "Hw1" in let H2 := fresh "Hpos" in
  let H3 := fresh "Hw2" in let H4 := fresh "Hnz" in
  destruct (guard_arith _ H) as (H1 & H2 & H3 & H4).

Ltac crunch Hvt :=
  repeat (progress (unfold_transport; simpl;
                    repeat match goal with
                           | H : _ = _ |- _ => rewrite H
                           end));
  rewrite <- ?app_assoc; simpl.

(** *** Up to the dispatch, for any subclass operation *)

Lemma disconnect_dispatch api t e tr fn :
  disconnect (vtables (vtable t)) = Some fn ->
  disconnected t = false ->
  _dbus_transport_disconnect vtables api (mkWorld (Some t) e tr) =
  (fn api ;;
   update (set_disconnected true) ;;
   DBUS_TRANSPORT_RELEASE_REF vtables api)
    (at_dispatch t e tr [] VDisconnect).
Proof.
  intros Hfn Hd. destruct t as [rc vt c l a d au mn]. simpl in *. subst d.
  unfold at_dispatch, hold_events, after_hold.
  destruct (is_null c) eqn:Hc; crunch Hfn; reflexivity.
Qed.

Lemma handle_watch_dispatch api t e tr watch condition fn :
  handle_watch (vtables (vtable t)) = Some fn ->
  disconnected t = false ->
  0 <= dbus_watch_get_fd watch e ->
  let sane := _dbus_watch_sanitize_condition watch condition e in
  _dbus_transport_handle_watch vtables api watch condition (mkWorld (Some t) e tr) =
  (fn api watch sane ;;
   emit (Ev_watch_unref watch) ;;
   DBUS_TRANSPORT_RELEASE_REF vtables api)
    (at_dispatch t e tr [(Ev_watch_ref watch, Some (after_hold t))]
                 (VHandleWatch watch sane)).
Proof.
  intros Hfn Hd Hfd sane. unfold sane.
  destruct t as [rc vt c l a d au mn]. simpl in *. subst d.
  assert (Hfd' : (dbus_watch_get_fd watch e <? 0) = false) by (apply Z.ltb_ge; lia).
  clear Hfd.
  unfold at_dispatch, hold_events, after_hold.
  destruct (is_null c) eqn:Hc; crunch Hfn; reflexivity.
Qed.

Lemma set_connection_dispatch api t e tr conn fn :
  connection_set (vtables (vtable t)) = Some fn ->
  is_null (connection t) = true ->
  _dbus_transport_set_connection vtables api conn (mkWorld (Some t) e tr) =
  (fn api ;; DBUS_TRANSPORT_RELEASE_REF vtables api)
    (at_dispatch (set_connection conn t) e tr [] VConnectionSet).
Proof.
  intros Hfn Hn. destruct t as [rc vt c l a d au mn]. simpl in *.
  unfold at_dispatch, hold_events, after_hold.
  destruct (is_null conn) eqn:Hc; crunch Hfn; reflexivity.
Qed.

Lemma messages_pending_dispatch api t e tr queue_length fn :
  messages_pending (vtables (vtable t)) = Some fn ->
  disconnected t = false ->
  _dbus_transport_messages_pending vtables api queue_length (mkWorld (Some t) e tr) =
  (fn api queue_length ;; DBUS_TRANSPORT_RELEASE_REF vtables api)
    (at_dispatch (set_messages_need_sending (0 <? queue_length) t) e tr []
                 (VMessagesPending queue_length)).
Proof.
  intros Hfn Hd. destruct t as [rc vt c l a d au mn]. simpl in *. subst d.
  unfold at_dispatch, hold_events, after_hold.
  destruct (is_null c) eqn:Hc; crunch Hfn; reflexivity.
Qed.

Lemma do_iteration_dispatch api t e tr flags timeout fn :
  do_iteration (vtables (vtable t)) = Some fn ->
  Z.land flags (Z.lor DBUS_ITERATION_DO_WRITING DBUS_ITERATION_DO_READING) <> 0 ->
  disconnected t = false ->
  _dbus_transport_do_iteration vtables api flags timeout (mkWorld (Some t) e tr) =
  (fn api flags timeout ;; DBUS_TRANSPORT_RELEASE_REF vtables api)
    (at_dispatch t e tr [] (VDoIteration flags timeout)).
Proof.
  intros Hfn Hfl Hd. destruct t as [rc vt c l a d au mn]. simpl in *. subst d.
  apply Z.eqb_neq in Hfl.
  unfold at_dispatch, hold_events, after_hold.
  destruct (is_null c) eqn:Hc; crunch Hfn; reflexivity.
Qed.

(** *** The five dispatching operations with a leaf subclass *)

Lemma disconnect_run f api t e tr :
  vtables (vtable t) = leaf_vtable f ->
  disconnected t = false ->
  0 < refcount t < INT_MAX ->
  let held := set_refcount (refcount t + 1) t in
  _dbus_transport_disconnect vtables api (mkWorld (Some t) e tr) =
  (Ok tt,
   mkWorld (Some (set_disconnected true t)) (f VDisconnect held e)
           (tr ++ hold_events t ++ [(Ev_vcall VDisconnect, Some held)]
               ++ release_events (set_disconnected true held))).
Proof.
  intros Hvt Hd Hrc held.
  destruct t as [rc vt c l a d au mn]. simpl in *. subst d.
  guard_facts Hrc. clear Hrc.
  unfold hold_events, release_events, held.
  destruct (is_null c) eqn:Hc; crunch Hvt; reflexivity.
Qed.

Lemma disconnect_again api t e tr :
  is_some (disconnect (vtables (vtable t))) = true ->
  disconnected t = true ->
  _dbus_transport_disconnect vtables api (mkWorld (Some t) e tr) =
  (Ok tt, mkWorld (Some t) e tr).
Proof.
  intros Hs Hd. crunch Hs. reflexivity.
Qed.

Lemma handle_watch_run f api t e tr watch condition :
  vtables (vtable t) = leaf_vtable f ->
  disconnected t = false ->
  0 < refcount t < INT_MAX ->
  0 <= dbus_watch_get_fd watch e ->
  let held := set_refcount (refcount t + 1) t in
  let sane := _dbus_watch_sanitize_condition watch condition e in
  _dbus_transport_handle_watch vtables api watch condition (mkWorld (Some t) e tr) =
  (Ok tt,
   mkWorld (Some t) (f (VHandleWatch watch sane) held e)
           (tr ++ hold_events t
               ++ [(Ev_watch_ref watch, Some held);
                   (Ev_vcall (VHandleWatch watch sane), Some held);
                   (Ev_watch_unref watch, Some held)]
               ++ release_events held)).
Proof.
  intros Hvt Hd Hrc Hfd held sane.
  destruct t as [rc vt c l a d au mn]. simpl in *. subst d.
  guard_facts Hrc. clear Hrc.
  assert (Hfd' : (dbus_watch_get_fd watch e <? 0) = false) by (apply Z.ltb_ge; lia).
  clear Hfd.
  unfold hold_events, release_events, held, sane.
  destruct (is_null c) eqn:Hc; crunch Hvt; reflexivity.
Qed.

Lemma set_connection_run f api t e tr conn :
  vtables (vtable t) = leaf_vtable f ->
  is_null (connection t) = true ->
  0 < refcount t < INT_MAX ->
  let bound := set_connection conn t in
  let held := set_refcount (refcount t + 1) bound in
  _dbus_transport_set_connection vtables api conn (mkWorld (Some t) e tr) =
  (Ok tt,
   mkWorld (Some bound) (f VConnectionSet held e)
           (tr ++ hold_events bound ++ [(Ev_vcall VConnectionSet, Some held)]
               ++ release_events held)).
Proof.
  intros Hvt Hn Hrc bound held.
  destruct t as [rc vt c l a d au mn]. simpl in *.
  guard_facts Hrc. clear Hrc.
  unfold hold_events, release_events, held, bound.
  destruct (is_null conn) eqn:Hc; crunch Hvt; reflexivity.
Qed.

Lemma messages_pending_run f api t e tr queue_length :
  vtables (vtable t) = leaf_vtable f ->
  disconnected t = false ->
  0 < refcount t < INT_MAX ->
  let flagged := set_messages_need_sending (0 <? queue_length) t in
  let held := set_refcount (refcount t + 1) flagged in
  _dbus_transport_messages_pending vtables api queue_length (mkWorld (Some t) e tr) =
  (Ok tt,
   mkWorld (Some flagged) (f (VMessagesPending queue_length) held e)
           (tr ++ hold_events flagged
               ++ [(Ev_vcall (VMessagesPending queue_length), Some held)]
               ++ release_events held)).
Proof.
  intros Hvt Hd Hrc flagged held.
  destruct t as [rc vt c l a d au mn]. simpl in *. subst d.
  guard_facts Hrc. clear Hrc.
  unfold hold_events, release_events, held, flagged.
  destruct (is_null c) eqn:Hc; crunch Hvt; reflexivity.
Qed.

Lemma do_iteration_run f api t e tr flags timeout :
  vtables (vtable t) = leaf_vtable f ->
  Z.land flags (Z.lor DBUS_ITERATION_DO_WRITING DBUS_ITERATION_DO_READING) <> 0 ->
  disconnected t = false ->
  0 < refcount t < INT_MAX ->
  let held := set_refcount (refcount t + 1) t in
  _dbus_transport_do_iteration vtables api flags timeout (mkWorld (Some t) e tr) =
  (Ok tt,
   mkWorld (Some t) (f (VDoIteration flags timeout) held e)
           (tr ++ hold_events t
               ++ [(Ev_vcall (VDoIteration flags timeout), Some held)]
               ++ release_events held)).
Proof.
  intros Hvt Hfl Hd Hrc held.
  destruct t as [rc vt c l a d au mn]. simpl in *. subst d.
  guard_facts Hrc. clear Hrc.
  apply Z.eqb_neq in Hfl.
  unfold hold_events, release_events, held.
  destruct (is_null c) eqn:Hc; crunch Hvt; reflexivity.
Qed.

(** *** The paths that do not dispatch *)

Lemma handle_watch_disconnected api t e tr watch condition :
  is_some (handle_watch (vtables (vtable t))) = true ->
  disconnected t = true ->
  _dbus_transport_handle_watch vtables api watch condition (mkWorld (Some t) e tr) =
  (Ok tt,
   mkWorld (Some t) e
     (tr ++ [(Ev_connection_transport_error (connection t) DBUS_RESULT_DISCONNECTED,
              Some t)])).
Proof.
  intros Hs Hd. crunch Hs. reflexivity.
Qed.

Lemma messages_pending_disconnected api t e tr queue_length :
  is_some (messages_pending (vtables (vtable t))) = true ->
  disconnected t = true ->
  _dbus_transport_messages_pending vtables api queue_length (mkWorld (Some t) e tr) =
  (Ok tt,
   mkWorld (Some t) e
     (tr ++ [(Ev_connection_transport_error (connection t) DBUS_RESULT_DISCONNECTED,
              Some t)])).
Proof.
  intros Hs Hd. crunch Hs. reflexivity.
Qed.

Lemma do_iteration_disconnected api t e tr flags timeout :
  is_some (do_iteration (vtables (vtable t))) = true ->
  Z.land flags (Z.lor DBUS_ITERATION_DO_WRITING DBUS_ITERATION_DO_READING) <> 0 ->
  disconnected t = true ->
  _dbus_transport_do_iteration vtables api flags timeout (mkWorld (Some t) e tr) =
  (Ok tt,
   mkWorld (Some t) e
     (tr ++ [(Ev_connection_transport_error (connection t) DBUS_RESULT_DISCONNECTED,
              Some t)])).
Proof.
  intros Hs Hfl Hd. apply Z.eqb_neq in Hfl. crunch Hs. reflexivity.
Qed.

Lemma do_iteration_no_direction api t e tr flags timeout :
  is_some (do_iteration (vtables (vtable t))) = true ->
  Z.land flags (Z.lor DBUS_ITERATION_DO_WRITING DBUS_ITERATION_DO_READING) = 0 ->
  _dbus_transport_do_iteration vtables api flags timeout (mkWorld (Some t) e tr) =
  (Ok tt, mkWorld (Some t) e tr).
Proof.
  intros Hs Hfl. apply Z.eqb_eq in Hfl. crunch Hs. reflexivity.
Qed.

(** *** The authentication query *)

Lemma get_is_authenticated_cached t e tr :
  authenticated t = true ->
  _dbus_transport_get_is_authenticated (mkWorld (Some t) e tr) =
  (Ok true, mkWorld (Some t) e tr).
Proof.
  intros Ha. crunch Ha. reflexivity.
Qed.

Lemma get_is_authenticated_work t e tr st e' :
  authenticated t = false ->
  _dbus_auth_do_work (auth t) e = (st, e') ->
  _dbus_transport_get_is_authenticated (mkWorld (Some t) e tr) =
  (Ok (st =? DBUS_AUTH_STATE_AUTHENTICATED),
   mkWorld (Some (set_authenticated (st =? DBUS_AUTH_STATE_AUTHENTICATED) t)) e'
           (tr ++ [(Ev_auth_do_work (auth t), Some t)])).
Proof.
  intros Ha Hw. crunch Ha. reflexivity.
Qed.

Ltac split_innermost :=
  match goal with
  | |- context [match ?x with _ => _ end] =>
      lazymatch x with
      | context [match _ with _ => _ end] => fail
      | _ => destruct x eqn:?
      end
  end.

Ltac split_cases Hvt :=
  repeat (repeat (progress (simpl; rewrite ?Hvt)); split_innermost);
  repeat (progress (simpl; rewrite ?Hvt)).

Lemma exec_call_keeps_auth f api c w :
  auth_kept vtables f w -> auth_kept vtables f (snd (exec_call vtables api c w)).
Proof.
  unfold auth_kept. destruct w as [[t|] e tr]; simpl.
  - intros [Ha Hvt]. destruct t as [rc vt cn l a d au mn]. simpl in *. subst au.
    destruct c; unfold exec_call; unfold_transport; split_cases Hvt; auto.
  - intros _. destruct c; unfold exec_call; unfold_transport; split_cases I; auto.
Qed.

Lemma exec_calls_keep_auth f api cs :
  forall w, auth_kept vtables f w -> auth_kept vtables f (snd (exec_calls vtables api cs w)).
Proof.
  induction cs as [|c cs IH]; intros w Hw; simpl.
  - exact Hw.
  - unfold bind. pose proof (exec_call_keeps_auth f api c w Hw) as Hc.
    destruct (exec_call vtables api c w) as [[[]|flt] w1]; simpl in *.
    + apply IH. exact Hc.
    + exact Hc.
Qed.

(** *** Reference counting *)

Lemma ref_run t e tr :
  0 < refcount t < INT_MAX ->
  _dbus_transport_ref (mkWorld (Some t) e tr) =
  (Ok tt, mkWorld (Some (set_refcount (refcount t + 1) t)) e
                  (tr ++ [(Ev_transport_ref, Some t)])).
Proof.
  intros Hrc. guard_facts Hrc. crunch Hrc. reflexivity.
Qed.

Lemma unref_keeps api t e tr :
  1 < refcount t <= INT_MAX ->
  _dbus_transport_unref vtables api (mkWorld (Some t) e tr) =
  (Ok tt, mkWorld (Some (set_refcount (refcount t - 1) t)) e
                  (tr ++ [(Ev_transport_unref, Some t)])).
Proof.
  intros Hrc.
  assert (Hpos : (0 <? refcount t) = true) by (apply Z.ltb_lt; lia).
  assert (Hw : int_wrap (refcount t - 1) = refcount t - 1)
    by (apply int_wrap_small; unfold INT_MIN, INT_MAX in *; lia).
  assert (Hnz : (refcount t - 1 =? 0) = false) by (apply Z.eqb_neq; lia).
  clear Hrc. crunch Hpos. reflexivity.
Qed.

Lemma unref_last_leaf f api t e tr :
  vtables (vtable t) = leaf_vtable f ->
  refcount t = 1 ->
  let dead := set_refcount 0 t in
  _dbus_transport_unref vtables api (mkWorld (Some t) e tr) =
  (Ok tt, mkWorld None (f VFinalize dead e)
                  (tr ++ [(Ev_transport_unref, Some t);
                          (Ev_vcall VFinalize, Some dead);
                          (Ev_free, Some dead)])).
Proof.
  intros Hvt Hrc dead. unfold dead.
  destruct t as [rc vt c l a d au mn]. simpl in *. subst rc.
  assert (Hw : int_wrap 0 = 0) by reflexivity.
  crunch Hvt. reflexivity.
Qed.

Lemma set_refcount_same (t : DBusTransport) : set_refcount (refcount t) t = t.
Proof. destruct t; reflexivity. Qed.

Lemma exec_refops_cons api o os w :
  exec_refops vtables api (o :: os) w =
  match exec_refop vtables api o w with
  | (Ok _, w') => exec_refops vtables api os w'
  | (Fault flt, w') => (Fault flt, w')
  end.
Proof. reflexivity. Qed.

(** With a subclass whose finalize does not call back: a sequence of refs
    and unrefs, each issued while the transport is still referenced, ends
    with the structure freed and finalize dispatched once exactly when the
    count has come down to zero, and with no finalize otherwise. *)
Theorem refcount_protocol_leaf f api os :
  forall t e tr,
    vtables (vtable t) = leaf_vtable f ->
    0 < refcount t ->
    refcount t + Z.of_nat (length os) <= INT_MAX ->
    live_before (refcount t) os = true ->
    exists e' added,
      exec_refops vtables api os (mkWorld (Some t) e tr) =
      (Ok tt,
       mkWorld (if balance (refcount t) os =? 0 then None
                else Some (set_refcount (balance (refcount t) os) t))
               e' (tr ++ added))
      /\ count_events is_finalize_call added =
         (if balance (refcount t) os =? 0 then 1%nat else 0%nat).
Proof.
  induction os as [|o os IH]; intros t e tr Hvt Hpos Hlen Hlive.
  - exists e, []. cbn [balance exec_refops length].
    assert (Hnz : (refcount t =? 0) = false) by (apply Z.eqb_neq; lia).
    rewrite Hnz, set_refcount_same, app_nil_r. split; reflexivity.
  - cbn [length] in Hlen. rewrite Nat2Z.inj_succ in Hlen.
    cbn [live_before] in Hlive. apply andb_true_iff in Hlive as [_ Hlive].
    rewrite exec_refops_cons. cbn [balance].
    destruct o; cbn [exec_refop count_after] in *.
    + rewrite ref_run by lia.
      destruct (IH (set_refcount (refcount t + 1) t) e
                   (tr ++ [(Ev_transport_ref, Some t)]))
        as (e' & added & Hrun & Hcount); try assumption; simpl; try lia.
      exists e', ((Ev_transport_ref, Some t) :: added).
      simpl in Hrun. rewrite Hrun, <- app_assoc. split; [reflexivity|].
      exact Hcount.
    + destruct (Z.eq_dec (refcount t) 1) as [H1|H1].
      * rewrite (unref_last_leaf f) by assumption.
        rewrite H1 in *. simpl in Hlive.
        destruct os as [|o' os']; [|simpl in Hlive; discriminate].
        exists (f VFinalize (set_refcount 0 t) e),
               [(Ev_transport_unref, Some t);
                (Ev_vcall VFinalize, Some (set_refcount 0 t));
                (Ev_free, Some (set_refcount 0 t))].
        split; reflexivity.
      * rewrite unref_keeps by lia.
        destruct (IH (set_refcount (refcount t - 1) t) e
                     (tr ++ [(Ev_transport_unref, Some t)]))
          as (e' & added & Hrun & Hcount); try assumption; simpl; try lia.
        exists e', ((Ev_transport_unref, Some t) :: added).
        simpl in Hrun. rewrite Hrun, <- app_assoc. split; [reflexivity|].
        exact Hcount.
Qed.

(** With a finalize that chains up as documented, the unref that drops
    the last reference of a still connected transport dispatches finalize,
    which through [_dbus_transport_finalize_base] and
    [_dbus_transport_disconnect] takes the count from 0 to 1 and back
    (HOLD_REF, RELEASE_REF), so the unref inside RELEASE_REF dispatches
    finalize a second time; the inner finalize frees the structure and the
    outer one then reads [transport->loader] from freed memory. *)
Lemma unref_last_connected_chained f n t e tr :
  vtables (vtable t) = chained_vtable f ->
  refcount t = 1 ->
  disconnected t = false ->
  let zero := set_refcount 0 t in
  let held := set_refcount 1 t in
  let marked := set_disconnected true held in
  let dead := set_refcount 0 marked in
  _dbus_transport_unref vtables (transport_api vtables (S (S n))) (mkWorld (Some t) e tr) =
  (Fault UseAfterFree,
   mkWorld None
     (f VFinalize dead (f VDisconnect held (f VFinalize zero e)))
     (tr ++ [(Ev_transport_unref, Some t); (Ev_vcall VFinalize, Some zero)]
         ++ hold_events zero
         ++ [(Ev_vcall VDisconnect, Some held)]
         ++ release_events marked
         ++ [(Ev_vcall VFinalize, Some dead);
             (Ev_message_loader_unref (loader t), Some dead);
             (Ev_auth_unref (auth t), Some dead);
             (Ev_free, Some dead)])).
Proof.
  intros Hvt Hrc Hd zero held marked dead.
  unfold zero, held, marked, dead, hold_events, release_events.
  destruct t as [rc vt c l a d au mn]. simpl in *. subst rc d.
  assert (Hw0 : int_wrap 0 = 0) by reflexivity.
  assert (Hw1 : int_wrap 1 = 1) by reflexivity.
  destruct (is_null c) eqn:Hc;
    unfold chained_finalize; crunch Hvt; unfold chained_finalize;
    crunch Hvt; reflexivity.
Qed.

(** ** The claims *)

Lemma disconnect_run_slot f api t e tr :
  disconnect (vtables (vtable t)) = disconnect (leaf_vtable f) ->
  disconnected t = false ->
  0 < refcount t < INT_MAX ->
  let held := set_refcount (refcount t + 1) t in
  _dbus_transport_disconnect vtables api (mkWorld (Some t) e tr) =
  (Ok tt,
   mkWorld (Some (set_disconnected true t)) (f VDisconnect held e)
           (tr ++ hold_events t ++ [(Ev_vcall VDisconnect, Some held)]
               ++ release_events (set_disconnected true held))).
Proof.
  intros Hslot Hd Hrc held.
  destruct t as [rc vt c l a d au mn]. simpl in *. subst d.
  guard_facts Hrc. clear Hrc.
  unfold hold_events, release_events, held.
  destruct (is_null c) eqn:Hc; crunch Hslot; reflexivity.
Qed.

(** The release unrefs the connection the structure holds when it starts,
    if any, and then calls [_dbus_transport_unref]. *)
Lemma release_ref_steps api t e tr :
  DBUS_TRANSPORT_RELEASE_REF vtables api (mkWorld (Some t) e tr) =
  _dbus_transport_unref vtables api
    (mkWorld (Some t) e (tr ++ connection_unref_events (connection t) t)).
Proof.
  unfold DBUS_TRANSPORT_RELEASE_REF, connection_unref_events, bind, load, emit, ret.
  simpl. destruct (is_null (connection t)); simpl; [rewrite app_nil_r|]; reflexivity.
Qed.

(** C2. On a referenced transport whose subclass disconnect does not call
    back, [N >= 1] calls of [_dbus_transport_disconnect] in a row dispatch
    the subclass disconnect once, in the first call, if the transport was
    connected: the N calls add to the trace the events of that first call
    and nothing else.  If the flag was already set by an earlier call they
    leave the world as it is.  In both cases one more call changes
    nothing, and [_dbus_transport_get_is_connected] returns false after
    the N calls, for every N. *)
Theorem disconnect_idempotent f api t e tr (N : nat) :
  disconnect (vtables (vtable t)) = disconnect (leaf_vtable f) ->
  0 < refcount t < INT_MAX ->
  (1 <= N)%nat ->
  let w0 := mkWorld (Some t) e tr in
  let held := set_refcount (refcount t + 1) t in
  let added := hold_events t ++ [(Ev_vcall VDisconnect, Some held)]
                 ++ release_events (set_disconnected true held) in
  let w1 := mkWorld (Some (set_disconnected true t)) (f VDisconnect held e)
                    (tr ++ added) in
  let wN := snd (times N (_dbus_transport_disconnect vtables api) w0) in
  (disconnected t = false ->
   times N (_dbus_transport_disconnect vtables api) w0 = (Ok tt, w1)
   /\ added_events (times N (_dbus_transport_disconnect vtables api)) w0 = added
   /\ count_events is_vcall added = 1%nat
   /\ count_events is_disconnect_call added = 1%nat)
  /\ (disconnected t = true ->
      times N (_dbus_transport_disconnect vtables api) w0 = (Ok tt, w0))
  /\ _dbus_transport_disconnect vtables api wN = (Ok tt, wN)
  /\ _dbus_transport_get_is_connected wN = (Ok false, wN).
Proof.
  intros Hslot Hrc HN w0 held added w1 wN.
  assert (Hs : is_some (disconnect (vtables (vtable t))) = true)
    by (rewrite Hslot; reflexivity).
  assert (Hstay : forall t' e' tr' k,
             is_some (disconnect (vtables (vtable t'))) = true ->
             disconnected t' = true ->
             times k (_dbus_transport_disconnect vtables api) (mkWorld (Some t') e' tr')
             = (Ok tt, mkWorld (Some t') e' tr')).
  { intros t' e' tr' k Hs' Hd'. induction k as [|k IHk]; [reflexivity|].
    simpl. unfold bind. rewrite disconnect_again by assumption. exact IHk. }
  assert (Hconn : disconnected t = false ->
                  times N (_dbus_transport_disconnect vtables api) w0 = (Ok tt, w1)).
  { intros Hd. destruct N as [|k]; [lia|].
    unfold w0. simpl. unfold bind.
    rewrite (disconnect_run_slot f) by assumption.
    apply Hstay; simpl; auto. }
  assert (Hgone : disconnected t = true ->
                  times N (_dbus_transport_disconnect vtables api) w0 = (Ok tt, w0)).
  { intros Hd. apply Hstay; assumption. }
  split; [|split; [exact Hgone|]].
  - intros Hd. split; [exact (Hconn Hd)|]. split; [|split].
    + unfold added_events. rewrite (Hconn Hd). simpl. apply skipn_length_app.
    + unfold added, hold_events, release_events, count_events.
      simpl. destruct (is_null (connection t)); reflexivity.
    + unfold added, hold_events, release_events, count_events.
      simpl. destruct (is_null (connection t)); reflexivity.
  - unfold wN. destruct (disconnected t) eqn:Hd.
    + rewrite (Hgone eq_refl). simpl. unfold w0.
      split; [apply disconnect_again; assumption|].
      unfold _dbus_transport_get_is_connected, bind, load, ret. simpl.
      rewrite Hd. reflexivity.
    + rewrite (Hconn eq_refl). simpl. unfold w1.
      split; [apply disconnect_again; simpl; auto|].
      reflexivity.
Qed.

(** C3. On a transport whose disconnected flag is set,
    [_dbus_transport_handle_watch], [_dbus_transport_messages_pending] and
    [_dbus_transport_do_iteration] (the latter with a read or write
    direction in its flags) each make one call,
    [_dbus_connection_transport_error (transport->connection,
    DBUS_RESULT_DISCONNECTED)], dispatch nothing and change neither the
    structure nor the collaborators. *)
Theorem disconnected_operations_report_error api t e tr :
  disconnected t = true ->
  let report := [(Ev_connection_transport_error (connection t) DBUS_RESULT_DISCONNECTED,
                  Some t)] in
  count_events is_vcall report = 0%nat
  /\ (forall watch condition,
        is_some (handle_watch (vtables (vtable t))) = true ->
        _dbus_transport_handle_watch vtables api watch condition (mkWorld (Some t) e tr) =
        (Ok tt, mkWorld (Some t) e (tr ++ report)))
  /\ (forall queue_length,
        is_some (messages_pending (vtables (vtable t))) = true ->
        _dbus_transport_messages_pending vtables api queue_length (mkWorld (Some t) e tr) =
        (Ok tt, mkWorld (Some t) e (tr ++ report)))
  /\ (forall flags timeout,
        is_some (do_iteration (vtables (vtable t))) = true ->
        Z.land flags (Z.lor DBUS_ITERATION_DO_WRITING DBUS_ITERATION_DO_READING) <> 0 ->
        _dbus_transport_do_iteration vtables api flags timeout (mkWorld (Some t) e tr) =
        (Ok tt, mkWorld (Some t) e (tr ++ report))).
Proof.
  intros Hd report. repeat split.
  - intros watch condition Hs. apply handle_watch_disconnected; assumption.
  - intros queue_length Hs. apply messages_pending_disconnected; assumption.
  - intros flags timeout Hs Hfl. apply do_iteration_disconnected; assumption.
Qed.

(** X15. Each of disconnect, handle_watch, set_connection, messages_pending
    and do_iteration, on the path that dispatches, has run
    DBUS_TRANSPORT_HOLD_REF when the subclass operation starts: the trace
    at the dispatch ends with the transport ref, the connection ref if a
    connection is attached, and the dispatch.  Whatever the subclass
    operation is (it may call back), when it returns
    DBUS_TRANSPORT_RELEASE_REF runs; if the structure is then allocated
    and [transport->connection] is what the hold found, the connection
    that was referenced, if any, is unreffed and then
    [_dbus_transport_unref] is called: the reverse of the acquisition. *)
Theorem dispatch_between_hold_and_release api t e tr :
  ((forall fn,
      disconnect (vtables (vtable t)) = Some fn ->
      disconnected t = false ->
      _dbus_transport_disconnect vtables api (mkWorld (Some t) e tr) =
      (fn api ;;
       update (set_disconnected true) ;;
       DBUS_TRANSPORT_RELEASE_REF vtables api)
        (at_dispatch t e tr [] VDisconnect))
   /\ (forall fn watch condition,
         handle_watch (vtables (vtable t)) = Some fn ->
         disconnected t = false ->
         0 <= dbus_watch_get_fd watch e ->
         let sane := _dbus_watch_sanitize_condition watch condition e in
         _dbus_transport_handle_watch vtables api watch condition (mkWorld (Some t) e tr) =
         (fn api watch sane ;;
          emit (Ev_watch_unref watch) ;;
          DBUS_TRANSPORT_RELEASE_REF vtables api)
           (at_dispatch t e tr [(Ev_watch_ref watch, Some (after_hold t))]
                        (VHandleWatch watch sane)))
   /\ (forall fn conn,
         connection_set (vtables (vtable t)) = Some fn ->
         is_null (connection t) = true ->
         _dbus_transport_set_connection vtables api conn (mkWorld (Some t) e tr) =
         (fn api ;; DBUS_TRANSPORT_RELEASE_REF vtables api)
           (at_dispatch (set_connection conn t) e tr [] VConnectionSet))
   /\ (forall fn queue_length,
         messages_pending (vtables (vtable t)) = Some fn ->
         disconnected t = false ->
         _dbus_transport_messages_pending vtables api queue_length (mkWorld (Some t) e tr) =
         (fn api queue_length ;; DBUS_TRANSPORT_RELEASE_REF vtables api)
           (at_dispatch (set_messages_need_sending (0 <? queue_length) t) e tr []
                        (VMessagesPending queue_length)))
   /\ (forall fn flags timeout,
         do_iteration (vtables (vtable t)) = Some fn ->
         Z.land flags (Z.lor DBUS_ITERATION_DO_WRITING DBUS_ITERATION_DO_READING) <> 0 ->
         disconnected t = false ->
         _dbus_transport_do_iteration vtables api flags timeout (mkWorld (Some t) e tr) =
         (fn api flags timeout ;; DBUS_TRANSPORT_RELEASE_REF vtables api)
           (at_dispatch t e tr [] (VDoIteration flags timeout))))
  /\ ((forall fn t2 e2 tr2,
     disconnect (vtables (vtable t)) = Some fn ->
     disconnected t = false ->
     fn api (at_dispatch t e tr [] VDisconnect) = (Ok tt, mkWorld (Some t2) e2 tr2) ->
     connection t2 = connection t ->
     _dbus_transport_disconnect vtables api (mkWorld (Some t) e tr) =
     _dbus_transport_unref vtables api
       (mkWorld (Some (set_disconnected true t2)) e2
                (tr2 ++ connection_unref_events (connection t)
                                                (set_disconnected true t2))))
  /\ (forall fn watch condition t2 e2 tr2,
        handle_watch (vtables (vtable t)) = Some fn ->
        disconnected t = false ->
        0 <= dbus_watch_get_fd watch e ->
        let sane := _dbus_watch_sanitize_condition watch condition e in
        fn api watch sane
           (at_dispatch t e tr [(Ev_watch_ref watch, Some (after_hold t))]
                        (VHandleWatch watch sane)) =
        (Ok tt, mkWorld (Some t2) e2 tr2) ->
        connection t2 = connection t ->
        _dbus_transport_handle_watch vtables api watch condition (mkWorld (Some t) e tr) =
        _dbus_transport_unref vtables api
          (mkWorld (Some t2) e2
                   (tr2 ++ [(Ev_watch_unref watch, Some t2)]
                        ++ connection_unref_events (connection t) t2)))
  /\ (forall fn conn t2 e2 tr2,
        connection_set (vtables (vtable t)) = Some fn ->
        is_null (connection t) = true ->
        fn api (at_dispatch (set_connection conn t) e tr [] VConnectionSet) =
        (Ok tt, mkWorld (Some t2) e2 tr2) ->
        connection t2 = conn ->
        _dbus_transport_set_connection vtables api conn (mkWorld (Some t) e tr) =
        _dbus_transport_unref vtables api
          (mkWorld (Some t2) e2 (tr2 ++ connection_unref_events conn t2)))
  /\ (forall fn queue_length t2 e2 tr2,
        messages_pending (vtables (vtable t)) = Some fn ->
        disconnected t = false ->
        fn api queue_length
           (at_dispatch (set_messages_need_sending (0 <? queue_length) t) e tr []
                        (VMessagesPending queue_length)) =
        (Ok tt, mkWorld (Some t2) e2 tr2) ->
        connection t2 = connection t ->
        _dbus_transport_messages_pending vtables api queue_length (mkWorld (Some t) e tr) =
        _dbus_transport_unref vtables api
          (mkWorld (Some t2) e2 (tr2 ++ connection_unref_events (connection t) t2)))
  /\ (forall fn flags timeout t2 e2 tr2,
        do_iteration (vtables (vtable t)) = Some fn ->
        Z.land flags (Z.lor DBUS_ITERATION_DO_WRITING DBUS_ITERATION_DO_READING) <> 0 ->
        disconnected t = false ->
        fn api flags timeout (at_dispatch t e tr [] (VDoIteration flags timeout)) =
        (Ok tt, mkWorld (Some t2) e2 tr2) ->
        connection t2 = connection t ->
        _dbus_transport_do_iteration vtables api flags timeout (mkWorld (Some t) e tr) =
        _dbus_transport_unref vtables api
          (mkWorld (Some t2) e2 (tr2 ++ connection_unref_events (connection t) t2)))).
Proof.
  split; [repeat split|repeat split].
  - intros fn Hfn Hd. apply disconnect_dispatch; assumption.
  - intros fn watch condition Hfn Hd Hfd. apply handle_watch_dispatch; assumption.
  - intros fn conn Hfn Hn. apply set_connection_dispatch; assumption.
  - intros fn queue_length Hfn Hd. apply messages_pending_dispatch; assumption.
  - intros fn flags timeout Hfn Hfl Hd. apply do_iteration_dispatch; assumption.
  - intros fn t2 e2 tr2 Hfn Hd Hret Hconn.
    rewrite (disconnect_dispatch api t e tr fn) by assumption.
    unfold bind at 1. rewrite Hret.
    unfold bind at 1, update. simpl.
    rewrite release_ref_steps. simpl. rewrite Hconn. reflexivity.
  - intros fn watch condition t2 e2 tr2 Hfn Hd Hfd sane Hret Hconn.
    rewrite (handle_watch_dispatch api t e tr watch condition fn) by assumption.
    unfold bind at 1. fold sane. rewrite Hret.
    unfold bind at 1, emit. simpl.
    rewrite release_ref_steps. rewrite Hconn, <- app_assoc. reflexivity.
  - intros fn conn t2 e2 tr2 Hfn Hn Hret Hconn.
    rewrite (set_connection_dispatch api t e tr conn fn) by assumption.
    unfold bind at 1. rewrite Hret.
    rewrite release_ref_steps. rewrite Hconn. reflexivity.
  - intros fn queue_length t2 e2 tr2 Hfn Hd Hret Hconn.
    rewrite (messages_pending_dispatch api t e tr queue_length fn) by assumption.
    unfold bind at 1. rewrite Hret.
    rewrite release_ref_steps. rewrite Hconn. reflexivity.
  - intros fn flags timeout t2 e2 tr2 Hfn Hfl Hd Hret Hconn.
    rewrite (do_iteration_dispatch api t e tr flags timeout fn) by assumption.
    unfold bind at 1. rewrite Hret.
    rewrite release_ref_steps. rewrite Hconn. reflexivity.
Qed.

(** C5. [_dbus_transport_get_is_authenticated] with the cache set returns
    true and does nothing else (the auth conversation is not consulted);
    with the cache clear it calls [_dbus_auth_do_work] once, stores whether
    the reported state is DBUS_AUTH_STATE_AUTHENTICATED and returns that;
    and once it has returned true it returns true, again without
    consulting the conversation, after any further calls of the owner
    ([_dbus_transport_disconnect] among them) for as long as the structure
    is allocated. *)
Theorem is_authenticated_monotonic api t e tr :
  (authenticated t = true ->
   _dbus_transport_get_is_authenticated (mkWorld (Some t) e tr) =
   (Ok true, mkWorld (Some t) e tr))
  /\ (forall st e',
        authenticated t = false ->
        _dbus_auth_do_work (auth t) e = (st, e') ->
        _dbus_transport_get_is_authenticated (mkWorld (Some t) e tr) =
        (Ok (st =? DBUS_AUTH_STATE_AUTHENTICATED),
         mkWorld (Some (set_authenticated (st =? DBUS_AUTH_STATE_AUTHENTICATED) t)) e'
                 (tr ++ [(Ev_auth_do_work (auth t), Some t)])))
  /\ (forall f w1 cs r w',
        vtables (vtable t) = leaf_vtable f ->
        _dbus_transport_get_is_authenticated (mkWorld (Some t) e tr) = (Ok true, w1) ->
        exec_calls vtables api cs w1 = (r, w') ->
        heap w' <> None ->
        _dbus_transport_get_is_authenticated w' = (Ok true, w')).
Proof.
  split; [|split].
  - apply get_is_authenticated_cached.
  - intros st e' Ha Hw. apply get_is_authenticated_work; assumption.
  - intros f w1 cs r w' Hvt Hget Hrun Hlive.
    assert (Hkept : auth_kept vtables f w1).
    { destruct (authenticated t) eqn:Ha.
      - rewrite get_is_authenticated_cached in Hget by assumption.
        injection Hget as <-. unfold auth_kept. simpl. auto.
      - destruct (_dbus_auth_do_work (auth t) e) as [st e'] eqn:Hw.
        rewrite (get_is_authenticated_work t e tr st e') in Hget by assumption.
        injection Hget as Hst <-. unfold auth_kept. simpl.
        rewrite Hst. auto. }
    pose proof (exec_calls_keep_auth f api cs w1 Hkept) as Hend.
    rewrite Hrun in Hend. simpl in Hend.
    destruct w' as [[t'|] e' tr']; simpl in *; [|congruence].
    unfold auth_kept in Hend. simpl in Hend.
    apply get_is_authenticated_cached. apply Hend.
Qed.

Ltac in_cases x Hd :=
  repeat match goal with
         | H : _ \/ _ |- _ => destruct H as [H|H]
         | H : False |- _ => contradiction
         | H : (_, _) = x |- _ =>
             subst x; eexists; split; [reflexivity | first [exact Hd | reflexivity]]
         end.

(** C6. A call of [_dbus_transport_disconnect] on a connected transport
    (as the first call finds it) has these effects in this order: the
    events of DBUS_TRANSPORT_HOLD_REF; the dispatch of the subclass
    disconnect, whatever it is, on a structure whose [disconnected] is
    still false; once that returns, the store of [disconnected = TRUE];
    then DBUS_TRANSPORT_RELEASE_REF.  With a subclass operation that does
    not call back, the events of the release find the flag set. *)
Theorem disconnect_side_effects_in_order api t e tr fn :
  disconnect (vtables (vtable t)) = Some fn ->
  disconnected t = false ->
  _dbus_transport_disconnect vtables api (mkWorld (Some t) e tr) =
  (fn api ;;
   update (set_disconnected true) ;;
   DBUS_TRANSPORT_RELEASE_REF vtables api)
    (at_dispatch t e tr [] VDisconnect)
  /\ (forall x, In x (hold_events t ++ [(Ev_vcall VDisconnect, Some (after_hold t))]) ->
                exists s, snd x = Some s /\ disconnected s = false)
  /\ (forall f,
        vtables (vtable t) = leaf_vtable f ->
        0 < refcount t < INT_MAX ->
        let held := set_refcount (refcount t + 1) t in
        let marked := set_disconnected true held in
        _dbus_transport_disconnect vtables api (mkWorld (Some t) e tr) =
        (Ok tt,
         mkWorld (Some (set_disconnected true t)) (f VDisconnect held e)
                 (tr ++ hold_events t ++ [(Ev_vcall VDisconnect, Some held)]
                     ++ release_events marked))
        /\ (forall x, In x (release_events marked) ->
                      exists s, snd x = Some s /\ disconnected s = true)).
Proof.
  intros Hfn Hd. split; [|split].
  - apply disconnect_dispatch; assumption.
  - unfold hold_events, after_hold. intros x Hx.
    destruct (is_null (connection t)); simpl in Hx; in_cases x Hd.
  - intros f Hvt Hrc held marked. split.
    + apply disconnect_run; assumption.
    + unfold release_events, marked, held. intros x Hx. simpl in Hx.
      destruct (is_null (connection t)); simpl in Hx; in_cases x Hd.
Qed.

(** C7. On a connected transport [_dbus_transport_messages_pending] stores
    [messages_need_sending = (queue_length > 0)] before it dispatches: the
    subclass messages_pending, whatever it is, starts on a structure whose
    flag is that of this call's queue length, not the flag found on entry;
    with a subclass operation that does not call back the flag is still
    that when the call returns. *)
Theorem messages_pending_sets_flag_before_dispatch api t e tr queue_length fn :
  messages_pending (vtables (vtable t)) = Some fn ->
  disconnected t = false ->
  let flagged := set_messages_need_sending (0 <? queue_length) t in
  let w_call := at_dispatch flagged e tr [] (VMessagesPending queue_length) in
  _dbus_transport_messages_pending vtables api queue_length (mkWorld (Some t) e tr) =
  (fn api queue_length ;; DBUS_TRANSPORT_RELEASE_REF vtables api) w_call
  /\ (exists s, heap w_call = Some s /\ messages_need_sending s = (0 <? queue_length))
  /\ (forall f,
        vtables (vtable t) = leaf_vtable f ->
        0 < refcount t < INT_MAX ->
        let held := set_refcount (refcount t + 1) flagged in
        _dbus_transport_messages_pending vtables api queue_length (mkWorld (Some t) e tr) =
        (Ok tt,
         mkWorld (Some flagged) (f (VMessagesPending queue_length) held e)
                 (tr ++ hold_events flagged
                     ++ [(Ev_vcall (VMessagesPending queue_length), Some held)]
                     ++ release_events held))).
Proof.
  intros Hfn Hd flagged w_call. split; [|split].
  - apply messages_pending_dispatch; assumption.
  - eexists. split; reflexivity.
  - intros f Hvt Hrc held. apply messages_pending_run; assumption.
Qed.

(** C8. [_dbus_transport_init_base] calls [_dbus_message_loader_new], then
    [_dbus_auth_server_new] when [server] is true and
    [_dbus_auth_client_new] otherwise.  If the loader is NULL it returns
    FALSE; if the auth is NULL it unrefs the loader and returns FALSE; in
    both cases the structure is as before.  Otherwise it returns TRUE with
    refcount 1, the given vtable, the two new objects and the three flags
    false. *)
Theorem init_base_all_or_nothing t e tr vt (server : bool) l e1 a e2 :
  _dbus_message_loader_new e = (l, e1) ->
  (if server then _dbus_auth_server_new e1 else _dbus_auth_client_new e1) = (a, e2) ->
  let new_auth : event :=
    if server then Ev_auth_server_new a else Ev_auth_client_new a in
  _dbus_transport_init_base vt server (mkWorld (Some t) e tr) =
  if is_null l then
    (Ok false, mkWorld (Some t) e1 (tr ++ [(Ev_message_loader_new l, Some t)]))
  else if is_null a then
    (Ok false,
     mkWorld (Some t) e2
             (tr ++ [(Ev_message_loader_new l, Some t);
                     (new_auth, Some t);
                     (Ev_message_loader_unref l, Some t)]))
  else
    (Ok true,
     mkWorld (Some (mkTransport 1 vt (connection t) l a false false false)) e2
             (tr ++ [(Ev_message_loader_new l, Some t); (new_auth, Some t)])).
Proof.
  intros Hl Ha new_auth. unfold new_auth.
  destruct server, (is_null l) eqn:Hnl, (is_null a) eqn:Hna;
    crunch Hl; reflexivity.
Qed.

(** C9. [_dbus_transport_do_iteration] with neither DBUS_ITERATION_DO_WRITING
    nor DBUS_ITERATION_DO_READING in [flags] returns with the world as it
    was, connected or not: no dispatch, no store, no error report.  With a
    direction set, a disconnected transport gets the error report and no
    dispatch, and a connected one (referenced, with a subclass that does
    not call back) gets the subclass do_iteration between
    DBUS_TRANSPORT_HOLD_REF and DBUS_TRANSPORT_RELEASE_REF. *)
Theorem do_iteration_without_direction_is_noop api t e tr flags timeout :
  is_some (do_iteration (vtables (vtable t))) = true ->
  let directions :=
    Z.land flags (Z.lor DBUS_ITERATION_DO_WRITING DBUS_ITERATION_DO_READING) in
  let held := set_refcount (refcount t + 1) t in
  (directions = 0 ->
   _dbus_transport_do_iteration vtables api flags timeout (mkWorld (Some t) e tr) =
   (Ok tt, mkWorld (Some t) e tr))
  /\ (directions <> 0 -> disconnected t = true ->
      _dbus_transport_do_iteration vtables api flags timeout (mkWorld (Some t) e tr) =
      (Ok tt,
       mkWorld (Some t) e
         (tr ++ [(Ev_connection_transport_error (connection t) DBUS_RESULT_DISCONNECTED,
                  Some t)])))
  /\ (forall f,
        vtables (vtable t) = leaf_vtable f ->
        0 < refcount t < INT_MAX ->
        directions <> 0 -> disconnected t = false ->
        _dbus_transport_do_iteration vtables api flags timeout (mkWorld (Some t) e tr) =
        (Ok tt,
         mkWorld (Some t) (f (VDoIteration flags timeout) held e)
               (tr ++ hold_events t
                   ++ [(Ev_vcall (VDoIteration flags timeout), Some held)]
                   ++ release_events held))).
Proof.
  intros Hs directions held.
  split; [|split].
  - intros Hz. apply do_iteration_no_direction; assumption.
  - intros Hnz Hd. apply do_iteration_disconnected; assumption.
  - intros f Hvt Hrc Hnz Hd. apply do_iteration_run; assumption.
Qed.

(** C10. On a disconnected transport [_dbus_transport_messages_pending]
    reports the error and returns with every field of the structure,
    [messages_need_sending] included, as it was: the flag is not
    recomputed from [queue_length] on this path. *)
Theorem messages_pending_disconnected_leaves_state api t e tr queue_length :
  is_some (messages_pending (vtables (vtable t))) = true ->
  disconnected t = true ->
  forall r w',
    _dbus_transport_messages_pending vtables api queue_length (mkWorld (Some t) e tr) = (r, w') ->
    r = Ok tt
    /\ heap w' = Some t
    /\ env w' = e
    /\ trace w' =
       tr ++ [(Ev_connection_transport_error (connection t) DBUS_RESULT_DISCONNECTED,
               Some t)].
Proof.
  intros Hs Hd r w' Hrun.
  rewrite messages_pending_disconnected in Hrun by assumption.
  injection Hrun as <- <-. repeat split.
Qed.

(** ** Further properties of dbus-transport.c *)

(** X2. [_dbus_transport_handle_watch] on a connected transport with a
    watch whose descriptor is negative calls [_dbus_warn] and returns:
    the condition is not sanitized into a dispatch, no reference is taken
    on the transport, the connection or the watch, and the structure is as
    before. *)
Theorem handle_watch_invalidated_watch api t e tr watch condition :
  is_some (handle_watch (vtables (vtable t))) = true ->
  disconnected t = false ->
  dbus_watch_get_fd watch e < 0 ->
  _dbus_transport_handle_watch vtables api watch condition (mkWorld (Some t) e tr) =
  (Ok tt, mkWorld (Some t) e (tr ++ [(Ev_warn, Some t)])).
Proof.
  intros Hs Hd Hfd. apply Z.ltb_lt in Hfd. crunch Hs. reflexivity.
Qed.

(** X3. [_dbus_transport_finalize_base] on a transport that is already
    disconnected unrefs the loader, then the auth conversation, and does
    nothing else: no dispatch, no change of the count or of any field. *)
Theorem finalize_base_after_disconnect api t e tr :
  disconnected t = true ->
  _dbus_transport_finalize_base vtables api (mkWorld (Some t) e tr) =
  (Ok tt,
   mkWorld (Some t) e
           (tr ++ [(Ev_message_loader_unref (loader t), Some t);
                   (Ev_auth_unref (auth t), Some t)])).
Proof.
  intros Hd. crunch Hd. reflexivity.
Qed.

(** X4. [_dbus_transport_finalize_base] on a connected transport whose
    count is 0, as a finalize operation finds it after the last unref,
    and whose subclass disconnect does not call back: the forced disconnect
    takes the count to 1 and back to 0, so the finalize operation of the
    vtable, whatever it is, is dispatched from inside
    [_dbus_transport_finalize_base], before the loader and the auth
    conversation are unreffed. *)
Theorem finalize_base_connected_redispatches_finalize f api t e tr fin :
  finalize (vtables (vtable t)) = Some fin ->
  disconnect (vtables (vtable t)) = disconnect (leaf_vtable f) ->
  disconnected t = false ->
  refcount t = 0 ->
  let held := set_refcount 1 t in
  let marked := set_disconnected true held in
  let dead := set_refcount 0 marked in
  _dbus_transport_finalize_base vtables api (mkWorld (Some t) e tr) =
  (fin api ;;
   t' <- load ;;
   emit (Ev_message_loader_unref (loader t')) ;;
   t' <- load ;;
   emit (Ev_auth_unref (auth t')))
    (mkWorld (Some dead) (f VDisconnect held e)
             (tr ++ hold_events t ++ [(Ev_vcall VDisconnect, Some held)]
                 ++ release_events marked
                 ++ [(Ev_vcall VFinalize, Some dead)])).
Proof.
  intros Hfin Hdis Hd Hrc held marked dead.
  unfold held, marked, dead, hold_events, release_events.
  destruct t as [rc vt c l a d au mn]. simpl in *. subst rc d.
  assert (Hw0 : int_wrap 0 = 0) by reflexivity.
  assert (Hw1 : int_wrap 1 = 1) by reflexivity.
  destruct (is_null c) eqn:Hc; crunch Hfin; reflexivity.
Qed.

(** X5. [_dbus_transport_set_connection] on a transport that already has a
    connection fails its assertion before anything is written or
    dispatched: the connection stays the one bound first. *)
Theorem set_connection_twice_asserts api t e tr conn :
  is_some (connection_set (vtables (vtable t))) = true ->
  is_null (connection t) = false ->
  _dbus_transport_set_connection vtables api conn (mkWorld (Some t) e tr) =
  (Fault AssertionFailed, mkWorld (Some t) e tr).
Proof.
  intros Hs Hn. crunch Hs. reflexivity.
Qed.

(** X6. [_dbus_transport_set_connection] does not look at the disconnected
    flag: on a disconnected transport without connection it binds the
    connection and dispatches the subclass connection_set between hold and
    release, where handle_watch, messages_pending and do_iteration would
    report an error. *)
Theorem set_connection_ignores_disconnected f api t e tr conn :
  vtables (vtable t) = leaf_vtable f ->
  disconnected t = true ->
  is_null (connection t) = true ->
  0 < refcount t < INT_MAX ->
  let bound := set_connection conn t in
  let held := set_refcount (refcount t + 1) bound in
  _dbus_transport_set_connection vtables api conn (mkWorld (Some t) e tr) =
  (Ok tt,
   mkWorld (Some bound) (f VConnectionSet held e)
           (tr ++ hold_events bound ++ [(Ev_vcall VConnectionSet, Some held)]
               ++ release_events held))
  /\ disconnected held = true
  /\ count_events is_vcall
       (hold_events bound ++ [(Ev_vcall VConnectionSet, Some held)]
          ++ release_events held) = 1%nat.
Proof.
  intros Hvt Hd Hn Hrc bound held. split; [|split].
  - apply set_connection_run; assumption.
  - exact Hd.
  - unfold hold_events, release_events, count_events, bound, held. simpl.
    destruct (is_null conn); reflexivity.
Qed.

(** X7. [_dbus_transport_unref] on a structure whose count is not positive
    fails its assertion: the count is not decremented and nothing is
    dispatched. *)
Theorem unref_without_reference_asserts api t e tr :
  refcount t <= 0 ->
  _dbus_transport_unref vtables api (mkWorld (Some t) e tr) =
  (Fault AssertionFailed,
   mkWorld (Some t) e (tr ++ [(Ev_transport_unref, Some t)])).
Proof.
  intros Hrc. apply Z.ltb_ge in Hrc. crunch Hrc. reflexivity.
Qed.

Lemma count_events_snoc p (tr : list (event * option DBusTransport)) x :
  count_events p (tr ++ [x]) =
  (count_events p tr + (if p x then 1 else 0))%nat.
Proof.
  unfold count_events. rewrite filter_app, length_app. simpl.
  destruct (p x); reflexivity.
Qed.

Lemma exec_call_stays_disconnected f k api c w :
  stays_disconnected vtables f k w ->
  stays_disconnected vtables f k (snd (exec_call vtables api c w)).
Proof.
  unfold stays_disconnected. destruct w as [[t|] e tr]; simpl.
  - intros [Hk [Hd Hvt]]. destruct t as [rc vt cn l a d au mn]. simpl in *. subst d.
    destruct c; unfold exec_call; unfold_transport; split_cases Hvt;
      rewrite ?count_events_snoc; simpl; rewrite ?Nat.add_0_r; auto.
  - intros [Hk _]. destruct c; unfold exec_call; unfold_transport; split_cases I;
      rewrite ?count_events_snoc; simpl; rewrite ?Nat.add_0_r; auto.
Qed.

(** X8. Once the disconnected flag is set it stays set, and the channel is
    left alone: over any sequence of calls of the owner on a disconnected
    transport (subclass operations that do not call back), no subclass
    handle_watch, disconnect, messages_pending or do_iteration is
    dispatched, and the structure, while allocated, is still disconnected
    at the end. *)
Theorem disconnected_is_final f api t e tr cs :
  vtables (vtable t) = leaf_vtable f ->
  disconnected t = true ->
  let w' := snd (exec_calls vtables api cs (mkWorld (Some t) e tr)) in
  count_events is_io_call (trace w') = count_events is_io_call tr
  /\ (forall t', heap w' = Some t' -> disconnected t' = true).
Proof.
  intros Hvt Hd.
  assert (Hgen : forall cs w,
             stays_disconnected vtables f (count_events is_io_call tr) w ->
             stays_disconnected vtables f (count_events is_io_call tr)
                                (snd (exec_calls vtables api cs w))).
  { clear cs. induction cs as [|c cs IH]; intros w Hw; simpl; [exact Hw|].
    unfold bind.
    pose proof (exec_call_stays_disconnected f _ api c w Hw) as Hc.
    destruct (exec_call vtables api c w) as [[[]|flt] w1]; simpl in *.
    - apply IH. exact Hc.
    - exact Hc. }
  intros w'.
  destruct (Hgen cs (mkWorld (Some t) e tr)) as [Hk Hh].
  { split; [reflexivity|]. simpl. auto. }
  fold w' in Hk, Hh. split; [exact Hk|].
  intros t' Ht'. rewrite Ht' in Hh. apply Hh.
Qed.

Ltac split_cases_all :=
  repeat (repeat (progress (simpl;
                            repeat match goal with
                                   | H : _ = _ |- _ => rewrite H
                                   end));
          split_innermost);
  repeat (progress (simpl;
                    repeat match goal with
                           | H : _ = _ |- _ => rewrite H
                           end)).

Lemma exec_call_refcount f api c t e tr :
  vtables (vtable t) = leaf_vtable f ->
  0 < refcount t < INT_MAX ->
  fst (exec_call vtables api c (mkWorld (Some t) e tr)) = Ok tt ->
  heap (snd (exec_call vtables api c (mkWorld (Some t) e tr))) = None
  \/ exists t1 e1 tr1,
       snd (exec_call vtables api c (mkWorld (Some t) e tr)) = mkWorld (Some t1) e1 tr1
       /\ refcount t1 = refcount t + ref_delta c
       /\ vtables (vtable t1) = leaf_vtable f
       /\ 0 < refcount t1.
Proof.
  intros Hvt Hrc.
  destruct t as [rc vt cn l a d au mn]. simpl in *.
  guard_facts Hrc.
  assert (Hpos0 : (0 <? rc) = true) by (apply Z.ltb_lt; lia).
  assert (Hw3 : int_wrap (rc - 1) = rc - 1)
    by (apply int_wrap_small; unfold INT_MIN, INT_MAX in *; lia).
  destruct c; unfold exec_call; unfold_transport; split_cases_all;
    intros Hok; try discriminate;
    repeat match goal with
           | H : (_ =? _) = false |- _ => apply Z.eqb_neq in H
           end;
    first [ left; reflexivity
          | right; do 3 eexists; split; [reflexivity|];
            simpl; repeat split; solve [assumption | lia] ].
Qed.

Lemma exec_call_freed api c e tr :
  heap (snd (exec_call vtables api c (mkWorld None e tr))) = None.
Proof.
  destruct c; unfold exec_call; unfold_transport; split_cases I; reflexivity.
Qed.

Lemma exec_calls_freed api cs :
  forall w, heap w = None -> heap (snd (exec_calls vtables api cs w)) = None.
Proof.
  induction cs as [|c cs IH]; intros w Hw; simpl; [exact Hw|].
  unfold bind. destruct w as [h e tr]. simpl in Hw. subst h.
  pose proof (exec_call_freed api c e tr) as Hc.
  destruct (exec_call vtables api c (mkWorld None e tr)) as [[[]|flt] w1]; simpl in *.
  - apply IH. exact Hc.
  - exact Hc.
Qed.

(** X9. The hold/release pairs balance: over any sequence of calls of the
    owner that runs to its end without a failed assertion and leaves the
    structure allocated (subclass operations that do not call back), the
    count ends at its initial value plus the refs minus the unrefs of the
    sequence; disconnect, handle_watch, set_connection, messages_pending,
    do_iteration and the two queries leave it as they found it. *)
Theorem refcount_conserved f api cs :
  forall t e tr,
    vtables (vtable t) = leaf_vtable f ->
    0 < refcount t ->
    refcount t + Z.of_nat (length cs) < INT_MAX ->
    fst (exec_calls vtables api cs (mkWorld (Some t) e tr)) = Ok tt ->
    forall t',
      heap (snd (exec_calls vtables api cs (mkWorld (Some t) e tr))) = Some t' ->
      refcount t' = refcount t + net_refs cs.
Proof.
  induction cs as [|c cs IH]; intros t e tr Hvt Hpos Hlen Hok t' Hend.
  - simpl in *. injection Hend as <-. lia.
  - cbn [length] in Hlen. rewrite Nat2Z.inj_succ in Hlen.
    cbn [exec_calls net_refs] in *. unfold bind in *.
    assert (Hrc : 0 < refcount t < INT_MAX) by lia.
    pose proof (exec_call_refcount f api c t e tr Hvt Hrc) as Hstep.
    destruct (exec_call vtables api c (mkWorld (Some t) e tr)) as [[[]|flt] w1];
      simpl in *; [|discriminate].
    destruct (Hstep eq_refl) as [Hnone | (t1 & e1 & tr1 & -> & Hrc1 & Hvt1 & Hpos1)].
    + rewrite (exec_calls_freed api cs w1 Hnone) in Hend. discriminate.
    + assert (Hd : -1 <= ref_delta c <= 1) by (destruct c; simpl; lia).
      rewrite (IH t1 e1 tr1 Hvt1 Hpos1 ltac:(lia) Hok t' Hend). lia.
Qed.

(** X10. A subclass handle_watch that disconnects its own transport from
    inside the call: the nested [_dbus_transport_disconnect] dispatches the
    subclass disconnect once and sets the flag; the outer call then
    releases its references and returns normally.  No finalize is
    dispatched, the structure stays allocated and the count ends as it
    began. *)
Theorem handle_watch_reentrant_disconnect f n t e tr watch condition :
  vtables (vtable t) = disconnecting_vtable f ->
  disconnected t = false ->
  0 < refcount t < INT_MAX - 1 ->
  0 <= dbus_watch_get_fd watch e ->
  let sane := _dbus_watch_sanitize_condition watch condition e in
  let held := set_refcount (refcount t + 1) t in
  let held2 := set_refcount (refcount t + 1 + 1) t in
  let added :=
    hold_events t
      ++ [(Ev_watch_ref watch, Some held);
          (Ev_vcall (VHandleWatch watch sane), Some held)]
      ++ hold_events held
      ++ [(Ev_vcall VDisconnect, Some held2)]
      ++ release_events (set_disconnected true held2)
      ++ [(Ev_watch_unref watch, Some (set_disconnected true held))]
      ++ release_events (set_disconnected true held) in
  _dbus_transport_handle_watch vtables (transport_api vtables (S n)) watch condition
                               (mkWorld (Some t) e tr) =
  (Ok tt,
   mkWorld (Some (set_disconnected true t))
           (f VDisconnect held2 (f (VHandleWatch watch sane) held e))
           (tr ++ added))
  /\ count_events is_finalize_call added = 0%nat
  /\ count_events is_disconnect_call added = 1%nat.
Proof.
  intros Hvt Hd Hrc Hfd sane held held2 added.
  assert (Hfd' : (dbus_watch_get_fd watch e <? 0) = false) by (apply Z.ltb_ge; lia).
  clear Hfd.
  assert (Hrc1 : 0 < refcount t < INT_MAX) by (unfold INT_MAX in *; lia).
  assert (Hrc2 : 0 < refcount t + 1 < INT_MAX) by (unfold INT_MAX in *; lia).
  split; [|split].
  - unfold added, held, held2, sane, hold_events, release_events.
    destruct t as [rc vt c l a d au mn]. simpl in *. subst d.
    guard_facts Hrc1. guard_facts Hrc2. clear Hrc Hrc1 Hrc2.
    assert (Hnz1 : (rc + 1 =? 0) = false) by (apply Z.eqb_neq; apply Z.ltb_lt in Hpos; lia).
    destruct (is_null c) eqn:Hc; crunch Hvt; reflexivity.
  - unfold added, hold_events, release_events, count_events. simpl.
    destruct (is_null (connection t)); reflexivity.
  - unfold added, hold_events, release_events, count_events. simpl.
    destruct (is_null (connection t)); reflexivity.
Qed.

(** X11. The hold keeps the transport alive across a callback that gives
    up the last outside reference.  On a transport with one reference and
    a subclass operation that unrefs the transport before it returns, in
    handle_watch, messages_pending and do_iteration the unref inside the
    callback finds the count at 2 and dispatches nothing; the finalize
    operation of the vtable, whatever it is, is dispatched by the
    [_dbus_transport_unref] of DBUS_TRANSPORT_RELEASE_REF, after the
    subclass operation has returned and after the connection was unreffed,
    and that is the first and only finalize dispatch up to there.  What the
    call does from there on is what the finalize operation does. *)
Theorem hold_defers_finalize_to_release f n t e tr fin :
  finalize (vtables (vtable t)) = Some fin ->
  handle_watch (vtables (vtable t)) = handle_watch (dropping_vtable f) ->
  messages_pending (vtables (vtable t)) = messages_pending (dropping_vtable f) ->
  do_iteration (vtables (vtable t)) = do_iteration (dropping_vtable f) ->
  disconnected t = false ->
  refcount t = 1 ->
  let api := transport_api vtables (S n) in
  let held := set_refcount 2 in
  let zero := set_refcount 0 in
  let finish (t1 : DBusTransport) :=
    release_events t1 ++ [(Ev_vcall VFinalize, Some (zero t1))] in
  (forall watch condition,
     0 <= dbus_watch_get_fd watch e ->
     let sane := _dbus_watch_sanitize_condition watch condition e in
     let added :=
       hold_events t
         ++ [(Ev_watch_ref watch, Some (held t));
             (Ev_vcall (VHandleWatch watch sane), Some (held t));
             (Ev_transport_unref, Some (held t));
             (Ev_watch_unref watch, Some t)]
         ++ finish t in
     _dbus_transport_handle_watch vtables api watch condition (mkWorld (Some t) e tr) =
     fin api (mkWorld (Some (zero t)) (f (VHandleWatch watch sane) (held t) e)
                      (tr ++ added))
     /\ count_events is_finalize_call added = 1%nat)
  /\ (forall queue_length,
        let flagged := set_messages_need_sending (0 <? queue_length) t in
        let added :=
          hold_events flagged
            ++ [(Ev_vcall (VMessagesPending queue_length), Some (held flagged));
                (Ev_transport_unref, Some (held flagged))]
            ++ finish flagged in
        _dbus_transport_messages_pending vtables api queue_length (mkWorld (Some t) e tr) =
        fin api (mkWorld (Some (zero flagged))
                         (f (VMessagesPending queue_length) (held flagged) e)
                         (tr ++ added))
        /\ count_events is_finalize_call added = 1%nat)
  /\ (forall flags timeout,
        Z.land flags (Z.lor DBUS_ITERATION_DO_WRITING DBUS_ITERATION_DO_READING) <> 0 ->
        let added :=
          hold_events t
            ++ [(Ev_vcall (VDoIteration flags timeout), Some (held t));
                (Ev_transport_unref, Some (held t))]
            ++ finish t in
        _dbus_transport_do_iteration vtables api flags timeout (mkWorld (Some t) e tr) =
        fin api (mkWorld (Some (zero t)) (f (VDoIteration flags timeout) (held t) e)
                         (tr ++ added))
        /\ count_events is_finalize_call added = 1%nat).
Proof.
  intros Hfin Hhw Hmp Hdi Hd Hrc api held zero finish.
  unfold api, held, zero, finish, hold_events, release_events.
  destruct t as [rc vt c l a d au mn]. simpl in *. subst rc d.
  assert (Hw0 : int_wrap 0 = 0) by reflexivity.
  assert (Hw1 : int_wrap 1 = 1) by reflexivity.
  assert (Hw2 : int_wrap 2 = 2) by reflexivity.
  split; [|split].
  - intros watch condition Hfd. cbv zeta.
    assert (Hfd' : (dbus_watch_get_fd watch e <? 0) = false) by (apply Z.ltb_ge; lia).
    clear Hfd.
    split.
    + destruct (is_null c) eqn:Hc; crunch Hfin; reflexivity.
    + unfold count_events. simpl. destruct (is_null c); reflexivity.
  - intros queue_length. cbv zeta. split.
    + destruct (is_null c) eqn:Hc; crunch Hfin; reflexivity.
    + unfold count_events. simpl. destruct (is_null c); reflexivity.
  - intros flags timeout Hfl. cbv zeta. apply Z.eqb_neq in Hfl. split.
    + destruct (is_null c) eqn:Hc; crunch Hfin; reflexivity.
    + unfold count_events. simpl. destruct (is_null c); reflexivity.
Qed.

Lemma bind_fault {A B : Type} (m : @M Env A) (k : A -> @M Env B) w flt :
  fst (m w) = Fault flt -> fst ((x <- m ;; k x) w) = Fault flt.
Proof.
  unfold bind. destruct (m w) as [[a|flt'] w1]; simpl; intros H;
    [discriminate H | injection H as ->; reflexivity].
Qed.

(** X12. The disconnected flag is stored only after the subclass disconnect
    has returned, so a subclass disconnect that calls
    [_dbus_transport_disconnect] on its own transport is dispatched again
    by that call, and again by the next: the descent has no end.  At every
    bound on the nesting depth the run is cut off while still descending. *)
Theorem disconnect_from_disconnect_never_returns f n :
  forall t e tr,
    vtables (vtable t) = redisconnecting_vtable f ->
    disconnected t = false ->
    fst (_dbus_transport_disconnect vtables (transport_api vtables n)
                                    (mkWorld (Some t) e tr)) = Fault OutOfFuel.
Proof.
  induction n as [|n IH]; intros t e tr Hvt Hd.
  - rewrite (disconnect_dispatch _ t e tr
               (fun api => subclass_work f VDisconnect ;; api_disconnect api))
      by (rewrite ?Hvt; auto).
    reflexivity.
  - rewrite (disconnect_dispatch _ t e tr
               (fun api => subclass_work f VDisconnect ;; api_disconnect api))
      by (rewrite ?Hvt; auto).
    apply bind_fault.
    unfold at_dispatch, subclass_work, bind at 1, load, extern. simpl.
    apply IH; assumption.
Qed.

(** X13. Construction followed by binding: after a successful
    [_dbus_transport_init_base] on a structure whose connection field is
    NULL (init_base does not write that field),
    [_dbus_transport_set_connection] binds the connection and dispatches
    the subclass connection_set once on a structure that is connected, not
    authenticated and holds two references; afterwards the count is 1 and
    [_dbus_transport_get_is_connected] returns true. *)
Theorem init_base_then_set_connection f api t e tr vt (server : bool) conn l e1 a e2 :
  vtables vt = leaf_vtable f ->
  is_null (connection t) = true ->
  _dbus_message_loader_new e = (l, e1) ->
  (if server then _dbus_auth_server_new e1 else _dbus_auth_client_new e1) = (a, e2) ->
  is_null l = false ->
  is_null a = false ->
  let new_auth : event :=
    if server then Ev_auth_server_new a else Ev_auth_client_new a in
  let bound := mkTransport 1 vt conn l a false false false in
  let held := set_refcount 2 bound in
  let w' := mkWorld (Some bound) (f VConnectionSet held e2)
                    (tr ++ [(Ev_message_loader_new l, Some t); (new_auth, Some t)]
                        ++ hold_events bound
                        ++ [(Ev_vcall VConnectionSet, Some held)]
                        ++ release_events held) in
  (_dbus_transport_init_base vt server ;;
   _dbus_transport_set_connection vtables api conn) (mkWorld (Some t) e tr) = (Ok tt, w')
  /\ _dbus_transport_get_is_connected w' = (Ok true, w').
Proof.
  intros Hvt Hn Hl Ha Hnl Hna new_auth bound held w'.
  unfold w', held, bound, new_auth, hold_events, release_events.
  destruct t as [rc vt0 c l0 a0 d au mn]. simpl in *.
  assert (Hw1 : int_wrap 1 = 1) by reflexivity.
  assert (Hw2 : int_wrap 2 = 2) by reflexivity.
  split.
  - destruct server, (is_null conn) eqn:Hc; crunch Hvt; reflexivity.
  - reflexivity.
Qed.

(** X14. Teardown in the order disconnect, then last unref, with a finalize
    that chains up to [_dbus_transport_finalize_base]: the disconnect
    dispatches the subclass disconnect; the unref takes the count to 0 and
    dispatches finalize once; [_dbus_transport_finalize_base] finds the
    flag set, skips the disconnect and unrefs the loader and the auth
    conversation once each; the structure is freed and nothing reads it
    afterwards. *)
Theorem disconnect_then_unref_tears_down_once f n t e tr :
  vtables (vtable t) = chained_vtable f ->
  disconnected t = false ->
  refcount t = 1 ->
  let api := transport_api vtables (S n) in
  let held := set_refcount 2 t in
  let gone := set_disconnected true t in
  let zero := set_refcount 0 gone in
  let added :=
    hold_events t ++ [(Ev_vcall VDisconnect, Some held)]
      ++ release_events (set_disconnected true held)
      ++ [(Ev_transport_unref, Some gone);
          (Ev_vcall VFinalize, Some zero);
          (Ev_message_loader_unref (loader t), Some zero);
          (Ev_auth_unref (auth t), Some zero);
          (Ev_free, Some zero)] in
  (_dbus_transport_disconnect vtables api ;; _dbus_transport_unref vtables api)
    (mkWorld (Some t) e tr) =
  (Ok tt, mkWorld None (f VFinalize zero (f VDisconnect held e)) (tr ++ added))
  /\ count_events is_finalize_call added = 1%nat.
Proof.
  intros Hvt Hd Hrc api held gone zero added.
  unfold api, held, gone, zero, added, hold_events, release_events.
  destruct t as [rc vt c l a d au mn]. simpl in *. subst rc d.
  assert (Hw0 : int_wrap 0 = 0) by reflexivity.
  assert (Hw1 : int_wrap 1 = 1) by reflexivity.
  assert (Hw2 : int_wrap 2 = 2) by reflexivity.
  split.
  - destruct (is_null c) eqn:Hc;
      unfold chained_finalize; crunch Hvt; unfold chained_finalize;
      crunch Hvt; reflexivity.
  - unfold count_events. destruct (is_null c); reflexivity.
Qed.

End Properties.

(** C1. The code at the failing input: a transport initialised by
    [_dbus_transport_init_base] (client role, count 1, connected) with a
    finalize that chains up, and the single call [_dbus_transport_unref].
    Finalize is dispatched twice, the second time from the unref inside
    the DBUS_TRANSPORT_RELEASE_REF of the disconnect that
    [_dbus_transport_finalize_base] forces, and the first finalize resumes
    on freed memory. *)
Theorem unref_of_connected_transport_finalizes_twice (n : nat) :
  exists w0 w',
    _dbus_transport_init_base 1%N false (mkWorld (Some zeroed) sim0 []) = (Ok true, w0)
    /\ heap w0 = Some unbound
    /\ exec_refops sim_chained (transport_api sim_chained (S (S n))) [Unref] w0 =
       (Fault UseAfterFree, w')
    /\ events w' =
       [Ev_message_loader_new 16%N; Ev_auth_client_new 32%N;
        Ev_transport_unref; Ev_vcall VFinalize;
        Ev_transport_ref; Ev_vcall VDisconnect; Ev_transport_unref;
        Ev_vcall VFinalize; Ev_message_loader_unref 16%N; Ev_auth_unref 32%N;
        Ev_free]
    /\ count_events is_finalize_call (trace w') = 2%nat.
Proof.
  exists (mkWorld (Some unbound) (mkSim [] [0; 5] [])
                  [(Ev_message_loader_new 16%N, Some zeroed);
                   (Ev_auth_client_new 32%N, Some zeroed)]).
  eexists.
  split; [reflexivity|]. split; [reflexivity|].
  split.
  - rewrite exec_refops_cons. cbn [exec_refop exec_refops].
    rewrite (unref_last_connected_chained sim_chained sim_subclass n unbound)
      by reflexivity.
    reflexivity.
  - split; reflexivity.
Qed.

(** From construction: two calls of [_dbus_transport_disconnect] on a
    transport just initialised dispatch the subclass disconnect once, and
    the transport is not connected afterwards. *)
Example two_disconnects_after_init :
  let api := transport_api sim_leaf 1 in
  let w0 := snd (_dbus_transport_init_base 1%N false (mkWorld (Some zeroed) sim0 [])) in
  let w2 := snd (times 2 (_dbus_transport_disconnect sim_leaf api) w0) in
  count_events is_disconnect_call (trace w2) = 1%nat
  /\ fst (_dbus_transport_get_is_connected w2) = Ok false.
Proof.
  vm_compute. split; reflexivity.
Qed.

Lemma disconnect_idempotent_witness :
  (0 < refcount live < INT_MAX /\ disconnected live = false)
  /\ events (snd (times 3 (_dbus_transport_disconnect sim_leaf (transport_api sim_leaf 0))
                        (mkWorld (Some live) sim0 []))) =
     [Ev_transport_ref; Ev_connection_ref 7%N; Ev_vcall VDisconnect;
      Ev_connection_unref 7%N; Ev_transport_unref].
Proof.
  split; [repeat split|].
  rewrite (proj1 (proj1 (disconnect_idempotent sim_leaf sim_subclass
                           (transport_api sim_leaf 0) live sim0 [] 3
                           eq_refl (conj eq_refl eq_refl)
                           (le_S 1 2 (le_S 1 1 (le_n 1))))
                        eq_refl)).
  reflexivity.
Defined.

Lemma disconnected_operations_report_error_witness :
  let gone := set_disconnected true live in
  disconnected gone = true
  /\ events (snd (_dbus_transport_handle_watch sim_leaf (transport_api sim_leaf 0)
                    9%N 1 (mkWorld (Some gone) sim0 []))) =
     [Ev_connection_transport_error 7%N 13].
Proof.
  split; [reflexivity|].
  rewrite (proj1 (proj2 (disconnected_operations_report_error sim_leaf
                           (transport_api sim_leaf 0) (set_disconnected true live)
                           sim0 [] eq_refl)) 9%N 1 eq_refl).
  reflexivity.
Defined.


Lemma dispatch_between_hold_and_release_witness :
  let api := transport_api sim_disconnecting 1 in
  let w' := snd (_dbus_transport_handle_watch sim_disconnecting api 9%N 1
                   (mkWorld (Some live) sim0 [])) in
  events w' =
    [Ev_transport_ref; Ev_connection_ref 7%N; Ev_watch_ref 9%N;
     Ev_vcall (VHandleWatch 9%N 1);
     Ev_transport_ref; Ev_connection_ref 7%N; Ev_vcall VDisconnect;
     Ev_connection_unref 7%N; Ev_transport_unref;
     Ev_watch_unref 9%N; Ev_connection_unref 7%N; Ev_transport_unref]
  /\ count_events (is_connection_ref 7%N) (trace w') = 2%nat
  /\ count_events (is_connection_unref 7%N) (trace w') = 2%nat.
Proof.
  intros api w'.
  pose (fn := fun (api : @API Sim) (watch : ptr) (flags : Z) =>
                bind (subclass_work sim_subclass (VHandleWatch watch flags))
                     (fun _ => api_disconnect api)).
  pose (w2 := snd (fn api 9%N 1
                      (at_dispatch live sim0 [] [(Ev_watch_ref 9%N, Some (after_hold live))]
                                   (VHandleWatch 9%N 1)))).
  assert (Hret : fn api 9%N 1
                    (at_dispatch live sim0 [] [(Ev_watch_ref 9%N, Some (after_hold live))]
                                 (VHandleWatch 9%N 1)) =
                 (Ok tt, mkWorld (Some (set_disconnected true (set_refcount 2 live)))
                                 (env w2) (trace w2)))
    by (vm_compute; reflexivity).
  assert (Hrun : w' =
                 snd (_dbus_transport_unref sim_disconnecting api
                        (mkWorld (Some (set_disconnected true (set_refcount 2 live)))
                                 (env w2)
                                 (trace w2
                                    ++ [(Ev_watch_unref 9%N,
                                         Some (set_disconnected true (set_refcount 2 live)))]
                                    ++ connection_unref_events (connection live)
                                         (set_disconnected true (set_refcount 2 live)))))).
  { unfold w'.
    rewrite (proj1 (proj2 (proj2 (dispatch_between_hold_and_release
                                    (collab := sim_collaborators) sim_disconnecting
                                    api live sim0 [])))
                   fn 9%N 1 _ _ _ eq_refl eq_refl
                   ltac:(vm_compute; discriminate) Hret eq_refl).
    reflexivity. }
  rewrite Hrun. vm_compute. repeat split.
Defined.

Lemma is_authenticated_monotonic_witness :
  let api := transport_api sim_leaf 0 in
  let w0 := mkWorld (Some live) (mkSim [] [5] []) [] in
  let w1 := snd (_dbus_transport_get_is_authenticated w0) in
  let w' := snd (exec_calls sim_leaf api [Call_disconnect; Call_messages_pending 1] w1) in
  _dbus_transport_get_is_authenticated w0 = (Ok true, w1)
  /\ heap w' <> None
  /\ _dbus_transport_get_is_authenticated w' = (Ok true, w').
Proof.
  intros api w0 w1 w'.
  assert (H0 : _dbus_transport_get_is_authenticated w0 = (Ok true, w1))
    by (vm_compute; reflexivity).
  assert (Hlive : heap w' <> None) by (vm_compute; discriminate).
  split; [exact H0|]. split; [exact Hlive|].
  exact (proj2 (proj2 (is_authenticated_monotonic sim_leaf api live
                         (mkSim [] [5] []) []))
               sim_subclass w1 [Call_disconnect; Call_messages_pending 1]
               _ w' eq_refl H0 (surjective_pairing _) Hlive).
Defined.

Lemma disconnect_side_effects_in_order_witness :
  (disconnected live = false /\ 0 < refcount live < INT_MAX)
  /\ events (snd (_dbus_transport_disconnect sim_leaf (transport_api sim_leaf 0)
                    (mkWorld (Some live) sim0 []))) =
     [Ev_transport_ref; Ev_connection_ref 7%N; Ev_vcall VDisconnect;
      Ev_connection_unref 7%N; Ev_transport_unref].
Proof.
  split; [repeat split|].
  rewrite (proj1 (proj2 (proj2 (disconnect_side_effects_in_order sim_leaf
                                  (transport_api sim_leaf 0) live sim0 [] _
                                  eq_refl eq_refl))
                        sim_subclass eq_refl (conj eq_refl eq_refl))).
  reflexivity.
Defined.

Lemma messages_pending_sets_flag_before_dispatch_witness :
  (disconnected live = false /\ 0 < refcount live < INT_MAX)
  /\ map (fun x => option_map messages_need_sending (snd x))
         (filter is_vcall
            (trace (snd (bind (_dbus_transport_messages_pending sim_leaf
                                 (transport_api sim_leaf 0) 5)
                              (fun _ => _dbus_transport_messages_pending sim_leaf
                                          (transport_api sim_leaf 0) 0)
                              (mkWorld (Some live) sim0 []))))) =
     [Some true; Some false].
Proof.
  split; [repeat split|].
  unfold bind at 1.
  rewrite (proj2 (proj2 (messages_pending_sets_flag_before_dispatch sim_leaf
                           (transport_api sim_leaf 0) live sim0 [] 5 _
                           eq_refl eq_refl))
                 sim_subclass eq_refl (conj eq_refl eq_refl)).
  reflexivity.
Defined.

Lemma init_base_all_or_nothing_witness :
  _dbus_transport_init_base 1%N false (mkWorld (Some zeroed) sim0 []) =
  (Ok true,
   mkWorld (Some unbound) (mkSim [] [0; 5] [])
           [(Ev_message_loader_new 16%N, Some zeroed);
            (Ev_auth_client_new 32%N, Some zeroed)]).
Proof.
  exact (init_base_all_or_nothing zeroed sim0 [] 1%N false
           16%N (mkSim [32%N] [0; 5] []) 32%N (mkSim [] [0; 5] [])
           eq_refl eq_refl).
Defined.

Lemma do_iteration_without_direction_is_noop_witness :
  let gone := set_disconnected true live in
  let w := mkWorld (Some gone) sim0 [] in
  Z.land 4 (Z.lor DBUS_ITERATION_DO_WRITING DBUS_ITERATION_DO_READING) = 0
  /\ _dbus_transport_do_iteration sim_leaf (transport_api sim_leaf 0) 4 (-1) w = (Ok tt, w).
Proof.
  split; [reflexivity|].
  exact (proj1 (do_iteration_without_direction_is_noop sim_leaf
                  (transport_api sim_leaf 0) (set_disconnected true live) sim0 [] 4 (-1)
                  eq_refl) eq_refl).
Defined.

Lemma messages_pending_disconnected_leaves_state_witness :
  let gone := set_messages_need_sending true (set_disconnected true live) in
  let w' := snd (_dbus_transport_messages_pending sim_leaf (transport_api sim_leaf 0) 0
                   (mkWorld (Some gone) sim0 [])) in
  disconnected gone = true /\ heap w' = Some gone.
Proof.
  split; [reflexivity|].
  exact (proj1 (proj2 (messages_pending_disconnected_leaves_state sim_leaf
                         (transport_api sim_leaf 0)
                         (set_messages_need_sending true (set_disconnected true live))
                         sim0 [] 0 eq_refl eq_refl _ _ eq_refl))).
Defined.

(** The scenario of the spec's section 8 on the concrete world: a client
    transport is connected and not authenticated; after disconnect it is
    not connected; a second disconnect and a handle_watch dispatch nothing,
    and the handle_watch reports the error. *)
Example scenario_client_disconnect :
  let api := transport_api sim_leaf 1 in
  let w0 := snd (_dbus_transport_init_base 1%N false
                   (mkWorld (Some zeroed) (mkSim [16%N; 32%N] [0] []) [])) in
  let w1 := snd (_dbus_transport_disconnect sim_leaf api w0) in
  let w2 := snd (_dbus_transport_disconnect sim_leaf api w1) in
  let w3 := snd (_dbus_transport_handle_watch sim_leaf api 9%N 1 w2) in
  fst (_dbus_transport_get_is_connected w0) = Ok true
  /\ fst (_dbus_transport_get_is_authenticated w0) = Ok false
  /\ fst (_dbus_transport_get_is_connected w1) = Ok false
  /\ w2 = w1
  /\ events w3 =
     [Ev_message_loader_new 16%N; Ev_auth_client_new 32%N;
      Ev_transport_ref; Ev_vcall VDisconnect; Ev_transport_unref;
      Ev_connection_transport_error NULL 13].
Proof.
  vm_compute. repeat split.
Qed.

(** ** The further properties on the concrete world *)

Lemma refcount_protocol_leaf_witness :
  exists e' added,
    exec_refops sim_leaf (transport_api sim_leaf 0) [Ref; Unref; Unref]
                (mkWorld (Some live) sim0 []) =
    (Ok tt, mkWorld None e' ([] ++ added))
    /\ count_events is_finalize_call added = 1%nat.
Proof.
  exact (refcount_protocol_leaf sim_leaf sim_subclass (transport_api sim_leaf 0)
           [Ref; Unref; Unref] live sim0 [] eq_refl eq_refl
           ltac:(vm_compute; discriminate) eq_refl).
Defined.

Lemma handle_watch_invalidated_watch_witness :
  dbus_watch_get_fd 0%N sim0 < 0
  /\ events (snd (_dbus_transport_handle_watch sim_leaf (transport_api sim_leaf 0)
                    0%N 3 (mkWorld (Some live) sim0 []))) = [Ev_warn].
Proof.
  split; [reflexivity|].
  rewrite (handle_watch_invalidated_watch (collab := sim_collaborators) sim_leaf (transport_api sim_leaf 0)
             live sim0 [] 0%N 3 eq_refl eq_refl ltac:(vm_compute; reflexivity)).
  reflexivity.
Defined.

Lemma finalize_base_after_disconnect_witness :
  events (snd (_dbus_transport_finalize_base sim_leaf (transport_api sim_leaf 0)
                 (mkWorld (Some (set_disconnected true live)) sim0 []))) =
  [Ev_message_loader_unref 16%N; Ev_auth_unref 32%N].
Proof.
  rewrite (finalize_base_after_disconnect sim_leaf (transport_api sim_leaf 0)
             (set_disconnected true live) sim0 [] eq_refl).
  reflexivity.
Defined.

Lemma finalize_base_connected_redispatches_finalize_witness :
  events (snd (_dbus_transport_finalize_base sim_chained (transport_api sim_chained 1)
                 (mkWorld (Some (set_refcount 0 unbound)) sim0 []))) =
  [Ev_transport_ref; Ev_vcall VDisconnect; Ev_transport_unref; Ev_vcall VFinalize;
   Ev_message_loader_unref 16%N; Ev_auth_unref 32%N; Ev_free].
Proof.
  rewrite (finalize_base_connected_redispatches_finalize sim_chained sim_subclass
             (transport_api sim_chained 1) (set_refcount 0 unbound) sim0 []
             (chained_finalize sim_subclass) eq_refl eq_refl eq_refl eq_refl).
  vm_compute. reflexivity.
Defined.

Lemma set_connection_twice_asserts_witness :
  is_null (connection live) = false
  /\ _dbus_transport_set_connection sim_leaf (transport_api sim_leaf 0) 8%N
       (mkWorld (Some live) sim0 []) =
     (Fault AssertionFailed, mkWorld (Some live) sim0 []).
Proof.
  split; [reflexivity|].
  exact (set_connection_twice_asserts sim_leaf (transport_api sim_leaf 0)
           live sim0 [] 8%N eq_refl eq_refl).
Defined.

Lemma set_connection_ignores_disconnected_witness :
  events (snd (_dbus_transport_set_connection sim_leaf (transport_api sim_leaf 0) 7%N
                 (mkWorld (Some (set_disconnected true unbound)) sim0 []))) =
  [Ev_transport_ref; Ev_connection_ref 7%N; Ev_vcall VConnectionSet;
   Ev_connection_unref 7%N; Ev_transport_unref].
Proof.
  rewrite (proj1 (set_connection_ignores_disconnected sim_leaf sim_subclass
                    (transport_api sim_leaf 0) (set_disconnected true unbound)
                    sim0 [] 7%N eq_refl eq_refl eq_refl (conj eq_refl eq_refl))).
  reflexivity.
Defined.

Lemma unref_without_reference_asserts_witness :
  fst (_dbus_transport_unref sim_leaf (transport_api sim_leaf 0)
         (mkWorld (Some zeroed) sim0 [])) = Fault AssertionFailed.
Proof.
  rewrite (unref_without_reference_asserts sim_leaf (transport_api sim_leaf 0)
             zeroed sim0 [] ltac:(vm_compute; discriminate)).
  reflexivity.
Defined.

Lemma disconnected_is_final_witness :
  count_events is_io_call
    (trace (snd (exec_calls sim_leaf (transport_api sim_leaf 0)
                   [Call_handle_watch 9%N 1; Call_disconnect; Call_set_connection 7%N;
                    Call_messages_pending 3; Call_do_iteration 2 0; Call_unref]
                   (mkWorld (Some (set_disconnected true unbound)) sim0 [])))) = 0%nat.
Proof.
  exact (proj1 (disconnected_is_final sim_leaf sim_subclass (transport_api sim_leaf 0)
                  (set_disconnected true unbound) sim0 []
                  [Call_handle_watch 9%N 1; Call_disconnect; Call_set_connection 7%N;
                   Call_messages_pending 3; Call_do_iteration 2 0; Call_unref]
                  eq_refl eq_refl)).
Defined.

Lemma refcount_conserved_witness :
  let cs := [Call_ref; Call_messages_pending 2; Call_handle_watch 9%N 1;
             Call_disconnect; Call_unref; Call_ref] in
  let final := mkTransport 2 1%N 7%N 16%N 32%N true false true in
  heap (snd (exec_calls sim_leaf (transport_api sim_leaf 0) cs
               (mkWorld (Some live) sim0 []))) = Some final
  /\ refcount final = refcount live + net_refs cs.
Proof.
  intros cs final.
  assert (Hend : heap (snd (exec_calls sim_leaf (transport_api sim_leaf 0) cs
                              (mkWorld (Some live) sim0 []))) = Some final)
    by (vm_compute; reflexivity).
  split; [exact Hend|].
  apply (refcount_conserved (collab := sim_collaborators) sim_leaf sim_subclass (transport_api sim_leaf 0) cs
           live sim0 []).
  - reflexivity.
  - reflexivity.
  - vm_compute. reflexivity.
  - vm_compute. reflexivity.
  - exact Hend.
Defined.

Lemma handle_watch_reentrant_disconnect_witness :
  events (snd (_dbus_transport_handle_watch sim_disconnecting
                 (transport_api sim_disconnecting 1) 9%N 1
                 (mkWorld (Some live) sim0 []))) =
  [Ev_transport_ref; Ev_connection_ref 7%N; Ev_watch_ref 9%N;
   Ev_vcall (VHandleWatch 9%N 1);
   Ev_transport_ref; Ev_connection_ref 7%N; Ev_vcall VDisconnect;
   Ev_connection_unref 7%N; Ev_transport_unref;
   Ev_watch_unref 9%N; Ev_connection_unref 7%N; Ev_transport_unref].
Proof.
  rewrite (proj1 (handle_watch_reentrant_disconnect (collab := sim_collaborators) sim_disconnecting sim_subclass 0
                    live sim0 [] 9%N 1 eq_refl eq_refl (conj eq_refl eq_refl)
                    ltac:(vm_compute; discriminate))).
  reflexivity.
Defined.

Lemma hold_defers_finalize_to_release_witness :
  _dbus_transport_do_iteration sim_dropping (transport_api sim_dropping 1)
    2 0 (mkWorld (Some live) sim0 []) =
  (Ok tt,
   mkWorld None (mkSim [16%N; 32%N] [0; 5] [VDoIteration 2 0; VFinalize])
     [(Ev_transport_ref, Some live);
      (Ev_connection_ref 7%N, Some (set_refcount 2 live));
      (Ev_vcall (VDoIteration 2 0), Some (set_refcount 2 live));
      (Ev_transport_unref, Some (set_refcount 2 live));
      (Ev_connection_unref 7%N, Some live);
      (Ev_transport_unref, Some live);
      (Ev_vcall VFinalize, Some (set_refcount 0 live));
      (Ev_free, Some (set_refcount 0 live))]).
Proof.
  rewrite (proj1 (proj2 (proj2 (hold_defers_finalize_to_release
                                  (collab := sim_collaborators) sim_dropping
                                  sim_subclass 0 live sim0 [] _
                                  eq_refl eq_refl eq_refl eq_refl eq_refl eq_refl))
                        2 0 ltac:(vm_compute; discriminate))).
  vm_compute. reflexivity.
Defined.

Lemma disconnect_from_disconnect_never_returns_witness :
  fst (_dbus_transport_disconnect sim_redisconnecting
         (transport_api sim_redisconnecting 5) (mkWorld (Some live) sim0 [])) =
  Fault OutOfFuel.
Proof.
  exact (disconnect_from_disconnect_never_returns sim_redisconnecting sim_subclass 5
           live sim0 [] eq_refl eq_refl).
Defined.

Lemma init_base_then_set_connection_witness :
  heap (snd (bind (_dbus_transport_init_base 1%N false)
                  (fun _ => _dbus_transport_set_connection sim_leaf
                              (transport_api sim_leaf 0) 7%N)
                  (mkWorld (Some zeroed) sim0 []))) = Some live.
Proof.
  rewrite (proj1 (init_base_then_set_connection (collab := sim_collaborators) sim_leaf sim_subclass
                    (transport_api sim_leaf 0) zeroed sim0 [] 1%N false 7%N
                    16%N (mkSim [32%N] [0; 5] []) 32%N (mkSim [] [0; 5] [])
                    eq_refl eq_refl eq_refl eq_refl eq_refl eq_refl)).
  reflexivity.
Defined.

Lemma disconnect_then_unref_tears_down_once_witness :
  events (snd (bind (_dbus_transport_disconnect sim_chained (transport_api sim_chained 1))
                    (fun _ => _dbus_transport_unref sim_chained
                                (transport_api sim_chained 1))
                    (mkWorld (Some live) sim0 []))) =
  [Ev_transport_ref; Ev_connection_ref 7%N; Ev_vcall VDisconnect;
   Ev_connection_unref 7%N; Ev_transport_unref;
   Ev_transport_unref; Ev_vcall VFinalize;
   Ev_message_loader_unref 16%N; Ev_auth_unref 32%N; Ev_free].
Proof.
  rewrite (proj1 (disconnect_then_unref_tears_down_once sim_chained sim_subclass 0
                    live sim0 [] eq_refl eq_refl eq_refl)).
  reflexivity.
Defined.
